(** * The embedding service: text normaliser, article scorer and request
      orchestration of [embedding-service/app.py], with the session scope of
      [embedding-service/database.py] and the [Article] rows of
      [embedding-service/models.py].

    Python values are embedded as follows.
    - [str] is a list of Unicode code points ([N]); [lit] turns a Rocq string
      literal into one.
    - [float] is IEEE 754 binary64, through the Standard Library's executable
      specification [spec_float] at precision 53 and maximal exponent 1024.
    - dynamically typed values (JSON bodies, classifier output) are [pyval].
    - raising is [Raise e] in [res]; handlers run in the monad [M], which
      threads the storage state and the log of model invocations. *)

From Stdlib Require Import ZArith NArith List String Ascii Lia Bool.
From Stdlib Require Import Floats.PrimFloat Floats.SpecFloat Floats.FloatOps.
From stdpp Require Import gmap.
Import ListNotations.

Local Open Scope nat_scope.
#[local] Set Warnings "-inexact-float,-register-all".

(** ** Strings *)

Module Str.

Definition str := list N.

Definition lit (s : string) : str :=
  List.map N_of_ascii (list_ascii_of_string s).

Fixpoint eqb (a b : str) : bool :=
  match a, b with
  | [], [] => true
  | x :: a', y :: b' => (x =? y)%N && eqb a' b'
  | _, _ => false
  end.

(** [str.isspace] on one character, which is also what [\s] matches in a
    [str] pattern of [re]: the code points CPython lists as white space. *)
Definition isspace (c : N) : bool :=
  ((9 <=? c) && (c <=? 13) || (28 <=? c) && (c <=? 32)
   || (c =? 133) || (c =? 160) || (c =? 5760)
   || (8192 <=? c) && (c <=? 8202)
   || (c =? 8232) || (c =? 8233) || (c =? 8239) || (c =? 8287)
   || (c =? 12288))%N.

Fixpoint lstrip (s : str) : str :=
  match s with
  | c :: s' => if isspace c then lstrip s' else s
  | [] => []
  end.

(** What is left of [s] without its trailing white space *)
Fixpoint rstrip (s : str) : str :=
  match s with
  | [] => []
  | c :: s' =>
      match rstrip s' with
      | [] => if isspace c then [] else [c]
      | r => c :: r
      end
  end.

(** [s.strip()] *)
Definition strip (s : str) : str := rstrip (lstrip s).

(** [s.split()]: the maximal runs of characters that are not white space.
    [cur] holds the characters of the word being read, last one first. *)
Fixpoint split_from (cur : str) (s : str) : list str :=
  match s with
  | [] => match cur with [] => [] | _ => [rev cur] end
  | c :: s' =>
      if isspace c
      then match cur with
           | [] => split_from [] s'
           | _ => rev cur :: split_from [] s'
           end
      else split_from (c :: cur) s'
  end.

Definition split (s : str) : list str := split_from [] s.

(** [s.count(ch)] for a one-character [ch]. *)
Fixpoint count (ch : N) (s : str) : nat :=
  match s with
  | [] => 0
  | c :: s' => if (c =? ch)%N then S (count ch s') else count ch s'
  end.

(** [s[-n:]] for [n > 0] *)
Definition last_chars (n : nat) (s : str) : str := skipn (length s - n) s.

(** [s.startswith(p)], returning what follows the prefix. *)
Fixpoint after_prefix (p s : str) : option str :=
  match p, s with
  | [], _ => Some s
  | a :: p', c :: s' => if (a =? c)%N then after_prefix p' s' else None
  | _ :: _, [] => None
  end.

End Str.
Import Str.

(** ** Floats *)

Module Float.

Definition float := spec_float.

Definition add : float -> float -> float := SFadd prec emax.
Definition sub : float -> float -> float := SFsub prec emax.
Definition mul : float -> float -> float := SFmul prec emax.
Definition ltb : float -> float -> bool := SFltb.
Definition leb : float -> float -> bool := SFleb.
Definition gtb (x y : float) : bool := ltb y x.

(** The literals of the scorer, as the doubles Python reads them as. *)
Definition f0_0 : float := Eval vm_compute in Prim2SF 0.0%float.
Definition f0_05 : float := Eval vm_compute in Prim2SF 0.05%float.
Definition f0_1 : float := Eval vm_compute in Prim2SF 0.1%float.
Definition f0_2 : float := Eval vm_compute in Prim2SF 0.2%float.
Definition f0_3 : float := Eval vm_compute in Prim2SF 0.3%float.
Definition f0_5 : float := Eval vm_compute in Prim2SF 0.5%float.
Definition f0_8 : float := Eval vm_compute in Prim2SF 0.8%float.
Definition f1_0 : float := Eval vm_compute in Prim2SF 1.0%float.

(** [min(a, b)] and [max(a, b)] of two arguments: the first is kept unless
    the second compares strictly below (above) it. *)
Definition py_min (a b : float) : float := if ltb b a then b else a.
Definition py_max (a b : float) : float := if gtb b a then b else a.

(** [0.0 <= x <= 1.0] *)
Definition in_unit (x : float) : bool := leb f0_0 x && leb x f1_0.

End Float.
Import Float.

(** ** Dynamically typed values and exceptions *)

Module Py.

(** The values that reach the modelled code: JSON request bodies and the
    classifier's output. Numbers are floats; a dict keeps its items in
    order, and a key is looked up from the front. *)
Inductive pyval :=
| PNone
| PFloat (x : float)
| PStr (s : str)
| PList (l : list pyval)
| PDict (d : list (str * pyval)).

Inductive exn_class :=
| KeyError | TypeError | AttributeError | ValueError | NameError
| SQLAlchemyError | OtherError.

(** An exception: its class and [str(e)]. *)
Record exn := Exn { exn_cls : exn_class; exn_msg : str }.

Inductive res (A : Type) :=
| Ok (a : A)
| Raise (e : exn).
Arguments Ok {A} a.
Arguments Raise {A} e.

#[global] Instance res_ret : MRet res := fun A a => Ok a.
#[global] Instance res_bind : MBind res := fun A B k r =>
  match r with Ok a => k a | Raise e => Raise e end.
#[global] Instance res_fmap : FMap res := fun A B f r =>
  match r with Ok a => Ok (f a) | Raise e => Raise e end.

Definition type_name (v : pyval) : str :=
  match v with
  | PNone => lit "NoneType"
  | PFloat _ => lit "float"
  | PStr _ => lit "str"
  | PList _ => lit "list"
  | PDict _ => lit "dict"
  end.

(** [bool(v)] *)
Definition truthy (v : pyval) : bool :=
  match v with
  | PNone => false
  | PFloat x => negb (SFeqb x f0_0)
  | PStr s => match s with [] => false | _ => true end
  | PList l => match l with [] => false | _ => true end
  | PDict d => match d with [] => false | _ => true end
  end.

(** [len(v)] *)
Definition py_len (v : pyval) : res nat :=
  match v with
  | PStr s => Ok (length s)
  | PList l => Ok (length l)
  | PDict d => Ok (length d)
  | _ => Raise (Exn TypeError
                  (lit "object of type '" ++ type_name v ++ lit "' has no len()"))
  end.

Fixpoint assoc (k : str) (d : list (str * pyval)) : option pyval :=
  match d with
  | [] => None
  | (k', v) :: d' => if Str.eqb k' k then Some v else assoc k d'
  end.

(** [k in v] for a dict [v] *)
Definition has_key (k : str) (v : pyval) : bool :=
  match v with
  | PDict d => match assoc k d with Some _ => true | None => false end
  | _ => false
  end.

Definition not_subscriptable (v : pyval) : exn :=
  Exn TypeError
    match v with
    | PStr _ => lit "string indices must be integers, not 'str'"
    | PList _ => lit "list indices must be integers or slices, not str"
    | _ => lit "'" ++ type_name v ++ lit "' object is not subscriptable"
    end.

(** [v[k]] for a string key [k] *)
Definition getitem (v : pyval) (k : str) : res pyval :=
  match v with
  | PDict d => match assoc k d with
               | Some x => Ok x
               | None => Raise (Exn KeyError (lit "'" ++ k ++ lit "'"))
               end
  | _ => Raise (not_subscriptable v)
  end.

(** [v[0]], for a [v] that is truthy and has a length *)
Definition getitem0 (v : pyval) : res pyval :=
  match v with
  | PList (x :: _) => Ok x
  | PList [] => Raise (Exn OtherError (lit "list index out of range"))
  | PStr (c :: _) => Ok (PStr [c])
  | PStr [] => Raise (Exn OtherError (lit "string index out of range"))
  | PDict _ => Raise (Exn KeyError (lit "0"))
  | _ => Raise (Exn TypeError
                  (lit "'" ++ type_name v ++ lit "' object is not subscriptable"))
  end.

(** The items [for x in v] runs through *)
Definition iter (v : pyval) : res (list pyval) :=
  match v with
  | PList l => Ok l
  | PStr s => Ok (List.map (fun c => PStr [c]) s)
  | PDict d => Ok (List.map (fun kv => PStr (fst kv)) d)
  | _ => Raise (Exn TypeError
                  (lit "'" ++ type_name v ++ lit "' object is not iterable"))
  end.

(** [v == s] for a string literal [s] *)
Definition eq_str (v : pyval) (s : str) : bool :=
  match v with PStr t => Str.eqb t s | _ => false end.

Definition no_attribute (v : pyval) (attr : str) : exn :=
  Exn AttributeError
    (lit "'" ++ type_name v ++ lit "' object has no attribute '" ++ attr ++ lit "'").

(** [v.strip()] *)
Definition py_strip (v : pyval) : res str :=
  match v with
  | PStr s => Ok (strip s)
  | _ => Raise (no_attribute v (lit "strip"))
  end.

(** [v.get(k)] and [v.get(k, default)] *)
Definition py_get (v : pyval) (k : str) (default : pyval) : res pyval :=
  match v with
  | PDict d => Ok (match assoc k d with Some x => x | None => default end)
  | _ => Raise (no_attribute v (lit "get"))
  end.

End Py.
Import Py.

(** ** Regular expressions: the three patterns of the normaliser and
    [re.sub] *)

Module Re.

(** The fragment of [re] syntax the patterns use: a character class, one
    expression after another, [r1|r2], [r?] and [r+] (both greedy). *)
Inductive regex :=
| Chr (p : N -> bool)
| Seq (r1 r2 : regex)
| Alt (r1 r2 : regex)
| Opt (r : regex)
| Plus (r : regex).

(** The rounds of [r+], where [step] gives the ways one round of [r] can
    match: after a round, more rounds are tried before stopping there. No
    [r] under a [+] here matches the empty string, so every round takes a
    character and [fuel = length s] rounds are enough. *)
Fixpoint rounds (step : str -> list str) (fuel : nat) (s : str) : list str :=
  match fuel with
  | O => []
  | S fuel' => flat_map (fun s1 => rounds step fuel' s1 ++ [s1]) (step s)
  end.

(** Matching by backtracking: [matches r s] lists what can be left of [s]
    after a match of [r] at its head, in the order [re] tries them, so
    its first element is what [re] finds. *)
Fixpoint matches (r : regex) (s : str) : list str :=
  match r with
  | Chr p => match s with
             | ch :: s' => if p ch then [s'] else []
             | [] => []
             end
  | Seq r1 r2 => flat_map (matches r2) (matches r1 s)
  | Alt r1 r2 => matches r1 s ++ matches r2 s
  | Opt r1 => matches r1 s ++ [s]
  | Plus r1 => rounds (matches r1) (length s) s
  end.

(** The length of the match that [re] finds starting at the head of [s],
    if there is one. None of the three patterns looks behind the point
    where it starts. *)
Definition exec (r : regex) (s : str) : option nat :=
  match matches r s with
  | rest :: _ => Some (length s - length rest)
  | [] => None
  end.

(** [re.sub(pattern, repl, s)]: scan from the left; where the pattern
    matches, emit [repl] and go on after the match, else emit the character
    and go on with the next. [skip] counts the characters of a match still
    to be dropped. The patterns here never match the empty string, so a
    match of length zero is treated as no match. *)
Fixpoint sub_from (r : regex) (repl : str) (skip : nat) (s : str) : str :=
  match s with
  | [] => []
  | ch :: s' =>
      match skip with
      | S k => sub_from r repl k s'
      | O =>
          match exec r s with
          | Some (S n) => repl ++ sub_from r repl n s'
          | _ => ch :: sub_from r repl 0 s'
          end
      end
  end.

Definition sub (r : regex) (repl : str) (s : str) : str := sub_from r repl 0 s.

(** *** Character classes and literals *)

(** [[lo-hi]] *)
Definition range (lo hi : string) (ch : N) : bool :=
  match lit lo, lit hi with
  | [a], [b] => ((a <=? ch) && (ch <=? b))%N
  | _, _ => false
  end.

(** [[chars]], each character standing for itself *)
Definition one_of (chars : string) (ch : N) : bool :=
  existsb (N.eqb ch) (lit chars).

Definition either (p q : N -> bool) (ch : N) : bool := p ch || q ch.

(** [\S] *)
Definition nonspace (ch : N) : bool := negb (isspace ch).

(** A literal string *)
Fixpoint literal (chars : str) (then_ : regex) : regex :=
  match chars with
  | [] => then_
  | a :: chars' => Seq (Chr (N.eqb a)) (literal chars' then_)
  end.

(** *** The patterns *)

(** [\s+] *)
Definition whitespace : regex := Plus (Chr isspace).

(** [[0-9a-fA-F]] *)
Definition hexdigit : regex :=
  Chr (either (range "0" "9") (either (range "a" "f") (range "A" "F"))).

(** [http[s]?://(?:[a-zA-Z]|[0-9]|[$-_@.&+]|[!*\\(\\),]|(?:%[0-9a-fA-F][0-9a-fA-F]))+]
    In [[$-_@.&+]] the [$-_] is a range; in [[!*\\(\\),]] each doubled
    backslash is one backslash. *)
Definition url : regex :=
  literal (lit "http")
    (Seq (Opt (Chr (one_of "s")))
       (literal (lit "://")
          (Plus
             (Alt (Chr (either (range "a" "z") (range "A" "Z")))
                (Alt (Chr (range "0" "9"))
                   (Alt (Chr (either (range "$" "_") (one_of "@.&+")))
                      (Alt (Chr (one_of "!*\(\),"))
                         (Seq (Chr (one_of "%"))
                            (Seq hexdigit hexdigit))))))))).

(** [\S+@\S+] *)
Definition email : regex :=
  Seq (Plus (Chr nonspace)) (Seq (Chr (one_of "@")) (Plus (Chr nonspace))).

(** The length of the longest prefix whose characters satisfy [p] *)
Fixpoint run (p : N -> bool) (s : str) : nat :=
  match s with
  | ch :: s' => if p ch then S (run p s') else 0
  | [] => 0
  end.

End Re.

(** ** The text normaliser *)

Definition clean_text_for_classification (text : str) : str :=
  (* Remove excessive whitespace and newlines *)
  let text := Re.sub Re.whitespace (lit " ") (strip text) in
  (* Remove URLs *)
  let text := Re.sub Re.url [] text in
  (* Remove email addresses *)
  let text := Re.sub Re.email [] text in
  (* Truncate very long text for the classifier *)
  let text :=
    if 500 <? length text
    then firstn 400 text ++ lit " " ++ last_chars 100 text
    else text in
  strip text.


(** The text after the first statement of the normaliser: trimmed, its
    runs of white space replaced by one space each. *)
Definition collapsed (text : str) : str :=
  Re.sub Re.whitespace (lit " ") (strip text).

(** [s] does not start with white space. *)
Definition hd_ok (s : str) : bool :=
  match s with
  | ch :: _ => negb (isspace ch)
  | [] => true
  end.

(** Every white-space character of [s] is a space followed by a character
    that is not white space (or by nothing). *)
Fixpoint tidy (s : str) : bool :=
  match s with
  | [] => true
  | ch :: s' =>
      (if isspace ch then (ch =? 32)%N && hd_ok s' else true) && tidy s'
  end.

(** ** The article scorer *)

Module Score.

(** Factor 1: text length *)
Definition length_factor (original_text : str) (base_score : float) : float :=
  let text_length := length (strip original_text) in
  if 1000 <? text_length then add base_score f0_3
  else if 500 <? text_length then add base_score f0_2
  else if 200 <? text_length then add base_score f0_1
  else if text_length <? 50 then sub base_score f0_2
  else base_score.

(** Factor 2: word count *)
Definition word_factor (original_text : str) (base_score : float) : float :=
  let word_count := length (split original_text) in
  if 200 <? word_count then add base_score f0_2
  else if 100 <? word_count then add base_score f0_1
  else if word_count <? 20 then sub base_score f0_1
  else base_score.

Definition unsupported (op : string) (v : pyval) : exn :=
  Exn TypeError
    (lit "'" ++ lit op ++ lit "' not supported between instances of '"
     ++ type_name v ++ lit "' and 'float'").

(** The body of the loop over [sentiment_result[0]] *)
Definition sentiment_step (base_score : float) (result : pyval) : res float :=
  label ← getitem result (lit "label");
  if eq_str label (lit "POSITIVE") then
    positive_confidence ← getitem result (lit "score");
    match positive_confidence with
    | PFloat x => Ok (add base_score (mul (sub x f0_5) f0_3))
    | v => Raise (Exn TypeError
                    (lit "unsupported operand type(s) for -: '" ++ type_name v
                     ++ lit "' and 'float'"))
    end
  else if eq_str label (lit "NEGATIVE") then
    negative_confidence ← getitem result (lit "score");
    match negative_confidence with
    | PFloat x => Ok (if gtb x f0_8 then sub base_score f0_1 else base_score)
    | v => Raise (unsupported ">" v)
    end
  else Ok base_score.

Fixpoint sentiment_loop (results : list pyval) (base_score : float) : res float :=
  match results with
  | [] => Ok base_score
  | result :: rest =>
      base_score ← sentiment_step base_score result;
      sentiment_loop rest base_score
  end.

(** Factor 3: sentiment analysis results. [x and len(x) > 0] looks at
    [len] only for a truthy [x]. *)
Definition sentiment_factor (sentiment_result : pyval) (base_score : float)
  : res float :=
  if truthy sentiment_result then
    n ← py_len sentiment_result;
    if 0 <? n then
      first ← getitem0 sentiment_result;
      results ← iter first;
      sentiment_loop results base_score
    else Ok base_score
  else Ok base_score.

Definition structure_indicators : list N :=
  List.concat (List.map lit ["."; "!"; "?"; ":"; ";"; ","]%string).

(** Factor 4: basic structure indicators *)
Definition structure_factor (original_text : str) (base_score : float) : float :=
  let structure_count :=
    list_sum (List.map (fun indicator => count indicator original_text)
                structure_indicators) in
  if 10 <? structure_count then add base_score f0_1
  else if 5 <? structure_count then add base_score f0_05
  else base_score.

(** [max(0.0, min(1.0, total))] *)
Definition clamp (total : float) : float := py_max f0_0 (py_min f1_0 total).

Definition calculate_article_score (original_text : str) (sentiment_result : pyval)
  : res float :=
  let base_score := f0_0 in
  let base_score := length_factor original_text base_score in
  let base_score := word_factor original_text base_score in
  base_score ← sentiment_factor sentiment_result base_score;
  let base_score := structure_factor original_text base_score in
  Ok (clamp (add base_score f0_5)).

End Score.
Import Score.


(** ** Shapes of classification results *)

(** A classification result in the shape the pipeline gives: a list whose
    first element lists dicts with a ['label'], and a float ['score'] where
    the label is one the scorer reads. A falsy result counts as well. *)
Definition entry_ok (e : pyval) : bool :=
  match e with
  | PDict d =>
      match assoc (lit "label") d with
      | Some l =>
          if eq_str l (lit "POSITIVE") || eq_str l (lit "NEGATIVE")
          then match assoc (lit "score") d with
               | Some (PFloat _) => true
               | _ => false
               end
          else true
      | None => false
      end
  | _ => false
  end.

Definition well_formed (sr : pyval) : bool :=
  negb (truthy sr) ||
  match sr with
  | PList (PList entries :: _) => forallb entry_ok entries
  | _ => false
  end.

(** The classification results the loop finds nothing in: a falsy value,
    or one whose first element is an empty list. *)
Definition empty_result (sr : pyval) : bool :=
  negb (truthy sr) ||
  match sr with
  | PList (PList [] :: _) => true
  | _ => false
  end.

(** ** Collaborators, storage and the handler monad *)

Module Env.

Abbreviation uuid := N (only parsing).

(** A row of [articles] ([models.Article]), keyed by its [id]. The two
    timestamps are readings of the database server's clock: [created_at]
    is set when the row is inserted, [updated_at] then and again by every
    UPDATE of the row ([onupdate=func.now()]). *)
Record Article := {
  user_id : uuid;
  url : str;
  title : option str;
  description : option str;
  image_url : option str;
  content : option str;
  word_count : Z;
  metadata_status : str;
  retry_count : Z;
  confidence_score : float;
  classifier_used : option str;
  embedding : option (list float);
  embedding_status : option str;
  created_at : Z;
  updated_at : Z
}.

Definition set_embedding (a : Article) (e : list float) (st : str) : Article :=
  {| user_id := user_id a; url := url a; title := title a;
     description := description a; image_url := image_url a;
     content := content a; word_count := word_count a;
     metadata_status := metadata_status a; retry_count := retry_count a;
     confidence_score := confidence_score a;
     classifier_used := classifier_used a;
     embedding := Some e; embedding_status := Some st;
     created_at := created_at a; updated_at := updated_at a |}.

(** The row after an UPDATE at time [t] *)
Definition touch (a : Article) (t : Z) : Article :=
  {| user_id := user_id a; url := url a; title := title a;
     description := description a; image_url := image_url a;
     content := content a; word_count := word_count a;
     metadata_status := metadata_status a; retry_count := retry_count a;
     confidence_score := confidence_score a;
     classifier_used := classifier_used a;
     embedding := embedding a; embedding_status := embedding_status a;
     created_at := created_at a; updated_at := t |}.

Abbreviation table := (gmap N Article).

(** What the service does not implement itself. [UUID] is [uuid.UUID] on a
    string ([None]: it raises [ValueError]); [encode] is [model.encode] on a
    list of texts, each row already a list ([tolist]); [classifier] is the
    text-classification pipeline. The next two say when storage fails: a
    query for an id, or a commit, then raises the exception given. [now] is
    what [func.now()] gives in the transaction of the request. *)
Record collab := {
  UUID : str -> option uuid;
  encode : list str -> res (list (list float));
  classifier : str -> res pyval;
  query_fault : uuid -> option exn;
  commit_fault : option exn;
  now : Z
}.

(** The same collaborators at another reading of the clock *)
Definition at_time (t : Z) (c : collab) : collab :=
  {| UUID := UUID c; encode := encode c; classifier := classifier c;
     query_fault := query_fault c; commit_fault := commit_fault c;
     now := t |}.

(** The row [a] as the handlers' update writes it: the vector and the
    status success assigned, and [updated_at] set by the UPDATE. *)
Definition written (c : collab) (a : Article) (e : list float) : Article :=
  touch (set_embedding a e (lit "success")) (now c).

Inductive call :=
| Encode (texts : list str)
| Classify (text : str).

(** [db] holds the committed rows; [session] is what the open session sees:
    the rows with the attribute assignments made on its objects; [calls]
    logs the model invocations, latest first. *)
Record world := World {
  db : table;
  session : table;
  calls : list call
}.

Definition M (A : Type) : Type := world -> res A * world.

#[global] Instance M_ret : MRet M := fun A a w => (Ok a, w).
#[global] Instance M_bind : MBind M := fun A B k m w =>
  match m w with
  | (Ok a, w') => k a w'
  | (Raise e, w') => (Raise e, w')
  end.

Definition raise {A} (e : exn) : M A := fun w => (Raise e, w).
Definition lift {A} (r : res A) : M A := fun w => (r, w).

(** [try: m except Exception as e: h e] *)
Definition try_except {A} (m : M A) (h : exn -> M A) : M A := fun w =>
  match m w with
  | (Ok a, w') => (Ok a, w')
  | (Raise e, w') => h e w'
  end.

(** [try: m finally: f] *)
Definition try_finally {A} (m : M A) (f : M unit) : M A := fun w =>
  match m w with
  | (r, w') => match f w' with
               | (Ok _, w'') => (r, w'')
               | (Raise e, w'') => (Raise e, w'')
               end
  end.

Section Collaborators.
Variable c : collab.

Definition model_encode (texts : list str) : M (list (list float)) := fun w =>
  (encode c texts, World (db w) (session w) (Encode texts :: calls w)).

Definition run_classifier (text : str) : M pyval := fun w =>
  (classifier c text, World (db w) (session w) (Classify text :: calls w)).

(** [SessionLocal()] *)
Definition session_open : M unit := fun w =>
  (Ok tt, World (db w) (db w) (calls w)).

(** [session.query(Article).filter(Article.id == id).first()] *)
Definition session_first (id : uuid) : M (option Article) := fun w =>
  match query_fault c id with
  | Some e => (Raise e, w)
  | None => (Ok (session w !! id), w)
  end.

(** Assigning [embedding] and [embedding_status] on the object of row
    [id]. The object is then dirty: the commit writes it with an UPDATE,
    which also sets [updated_at] ([models.py], [onupdate=func.now()]). The
    session's view holds the row as that UPDATE writes it. *)
Definition session_assign (id : uuid) (a : Article) : M unit := fun w =>
  (Ok tt, World (db w) (<[id := touch a (now c)]> (session w)) (calls w)).

Definition session_commit : M unit := fun w =>
  match commit_fault c with
  | Some e => (Raise e, w)
  | None => (Ok tt, World (session w) (session w) (calls w))
  end.

Definition session_rollback : M unit := fun w =>
  (Ok tt, World (db w) (db w) (calls w)).

Definition session_close : M unit := fun w => (Ok tt, w).

(** [with get_db_session() as session: body] ([database.get_db_session]) *)
Definition get_db_session {A} (body : M A) : M A :=
  _ ← session_open;
  try_finally
    (try_except
       (r ← body;
        _ ← session_commit;
        mret r)
       (fun e => _ ← session_rollback; raise e))
    session_close.

End Collaborators.

End Env.
Import Env.

(** ** The request handlers *)

Module App.

Record classify_result := {
  cr_text : str;
  cr_is_article : bool;
  cr_confidence : float;
  cr_index : nat
}.

Inductive item_result :=
| ItemError (article_id : pyval) (message : str)
| ItemSuccess (article_id : pyval) (embedding_dimension : nat).

(** The JSON bodies the four handlers answer with *)
Inductive body :=
| ErrorBody (error : str)
| EmbedBatchBody (texts : list str) (embeddings : list (list float))
    (count dimension : nat)
| ClassifyBatchBody (results : list classify_result) (count processed : nat)
| EmbedBody (text : pyval) (embedding : list float) (dimension : nat)
| StoreBody (article_id : str) (embedding_dimension : nat)
    (embedding_status message : str)
| BatchStoreBody (total_articles successful_updates : nat)
    (results : list item_result).

Definition response : Type := body * nat.

Definition error (msg : string) (status : nat) : response :=
  (ErrorBody (lit msg), status).

(** [needle in s] for strings *)
Fixpoint is_substring (needle s : str) : bool :=
  match after_prefix needle s with
  | Some _ => true
  | None => match s with
            | [] => false
            | _ :: s' => is_substring needle s'
            end
  end.

(** [k in data] for a string [k] *)
Definition contains (data : pyval) (k : str) : res bool :=
  match data with
  | PDict _ => Ok (has_key k data)
  | PList l => Ok (existsb (fun v => eq_str v k) l)
  | PStr s => Ok (is_substring k s)
  | _ => Raise (Exn TypeError
                  (lit "argument of type '" ++ type_name data
                   ++ lit "' is not iterable"))
  end.

(** [not data or field not in data] *)
Definition missing_field (data : pyval) (field : str) : res bool :=
  if truthy data then negb <$> contains data field else Ok true.

Definition is_list (v : pyval) : bool :=
  match v with PList _ => true | _ => false end.

Definition items (v : pyval) : list pyval :=
  match v with PList l => l | _ => [] end.

(** [text and text.strip()], as a condition *)
Definition nonblank (text : pyval) : res bool :=
  if truthy text then
    s ← py_strip text;
    Ok (match s with [] => false | _ => true end)
  else Ok false.

Definition index_error : exn := Exn OtherError (lit "list index out of range").

Definition at_index {A} (l : list A) (i : nat) : res A :=
  match l !! i with Some x => Ok x | None => Raise index_error end.

(** [s[:100] + "..." if len(s) > 100 else s] *)
Definition preview (s : str) : str :=
  if 100 <? length s then firstn 100 s ++ lit "..." else s.

Definition is_empty (s : str) : bool :=
  match s with [] => true | _ => false end.

Section Handlers.
Variable c : collab.

(** *** [/embed] *)

Definition generate_embedding_body (data : pyval) : M response :=
  missing ← lift (missing_field data (lit "text"));
  if missing : bool then mret (error "Missing 'text' field in request" 400) else
  text ← lift (getitem data (lit "text"));
  keep ← lift (nonblank text);
  if negb keep then mret (error "Empty text provided" 400) else
  (* Generate embedding *)
  stripped ← lift (py_strip text);
  rows ← model_encode c [stripped];
  embedding_list ← lift (at_index rows 0);
  mret (EmbedBody text embedding_list (length embedding_list), 200).

Definition generate_embedding (data : pyval) : M response :=
  try_except (generate_embedding_body data)
    (fun e => mret (error "Internal server error" 500)).

(** *** [/embed/batch] *)

(** [[text.strip() for text in texts if text and text.strip()]] *)
Fixpoint strip_nonblank (texts : list pyval) : res (list str) :=
  match texts with
  | [] => Ok []
  | text :: rest =>
      keep ← nonblank text;
      if keep : bool then
        s ← py_strip text;
        (cons s) <$> strip_nonblank rest
      else strip_nonblank rest
  end.

Definition generate_batch_embeddings_body (data : pyval) : M response :=
  missing ← lift (missing_field data (lit "texts"));
  if missing : bool then mret (error "Missing 'texts' field in request" 400) else
  texts ← lift (getitem data (lit "texts"));
  if negb (is_list texts) || negb (truthy texts)
  then mret (error "Empty or invalid texts list" 400) else
  (* Filter empty texts *)
  clean_texts ← lift (strip_nonblank (items texts));
  match clean_texts with
  | [] => mret (error "No valid texts provided" 400)
  | _ =>
      (* Generate embeddings in batch *)
      embeddings_list ← model_encode c clean_texts;
      mret (EmbedBatchBody clean_texts embeddings_list
              (length embeddings_list)
              match embeddings_list with
              | first :: _ => length first
              | [] => 0
              end, 200)
  end.

Definition generate_batch_embeddings (data : pyval) : M response :=
  try_except (generate_batch_embeddings_body data)
    (fun e => mret (error "Internal server error" 500)).

(** *** [/classify/batch] *)

(** The first loop: [clean_texts] and [original_indices], in order.
    [i] is the index [enumerate] is at. *)
Fixpoint filter_and_clean (i : nat) (texts : list pyval)
  : res (list str * list nat) :=
  match texts with
  | [] => Ok ([], [])
  | text :: rest =>
      keep ← nonblank text;
      if keep : bool then
        s ← py_strip text;
        '(clean_texts, original_indices) ← filter_and_clean (S i) rest;
        Ok (clean_text_for_classification s :: clean_texts,
            i :: original_indices)
      else filter_and_clean (S i) rest
  end.

Definition as_str (v : pyval) : res str :=
  match v with
  | PStr s => Ok s
  | _ => Raise (no_attribute v (lit "strip"))
  end.

(** The second loop, from position [i] of [clean_texts] on *)
Fixpoint classify_all (texts : list pyval) (original_indices : list nat)
    (i : nat) (clean_texts : list str) : M (list classify_result) :=
  match clean_texts with
  | [] => mret []
  | cleaned_text :: rest =>
      index ← lift (at_index original_indices i);
      original ← lift (at_index texts index);
      classification_result ← run_classifier c cleaned_text;
      original_text ← lift (as_str original);
      article_score ← lift (calculate_article_score original_text
                              classification_result);
      results ← classify_all texts original_indices (S i) rest;
      mret ({| cr_text := preview original_text;
               cr_is_article := gtb article_score f0_5;
               cr_confidence := article_score;
               cr_index := index |} :: results)
  end.

Definition classify_batch_content_body (data : pyval) : M response :=
  missing ← lift (missing_field data (lit "texts"));
  if missing : bool then mret (error "Missing 'texts' field in request" 400) else
  texts ← lift (getitem data (lit "texts"));
  if negb (is_list texts) || negb (truthy texts)
  then mret (error "Empty or invalid texts list" 400) else
  '(clean_texts, original_indices) ← lift (filter_and_clean 0 (items texts));
  match clean_texts with
  | [] => mret (error "No valid texts provided" 400)
  | _ =>
      results ← classify_all (items texts) original_indices 0 clean_texts;
      mret (ClassifyBatchBody results (length results) (length clean_texts), 200)
  end.

Definition classify_batch_content (data : pyval) : M response :=
  try_except (classify_batch_content_body data)
    (fun e => mret (error "Internal server error" 500)).

(** *** [/articles/<article_id>/embedding] *)

Definition on_error (e : exn) : M response :=
  match exn_cls e with
  | SQLAlchemyError => mret (error "Database error" 500)
  | _ => mret (error "Internal server error" 500)
  end.

(** The [with] block: [Some r] when it leaves by [return r], [None] when it
    runs to its end. *)
Definition store_embedding (article_uuid : uuid) (embedding_list : list float)
  : M (option response) :=
  get_db_session c
    ((* Find the article *)
     article ← session_first c article_uuid;
     match article with
     | None => mret (Some (error "Article not found" 404))
     | Some a =>
         (* Update embedding fields *)
         _ ← session_assign c article_uuid
               (set_embedding a embedding_list (lit "success"));
         _ ← session_commit c;
         mret None
     end).

Definition generate_and_store_embedding_body (article_id : str) (data : pyval)
  : M response :=
  (* Validate UUID *)
  match UUID c article_id with
  | None => mret (error "Invalid article ID format" 400)
  | Some article_uuid =>
      missing ← lift (missing_field data (lit "text"));
      if missing : bool then mret (error "Missing 'text' field in request" 400) else
      v ← lift (py_get data (lit "text") (PStr []));
      text ← lift (py_strip v);
      if is_empty text then mret (error "Empty text provided" 400) else
      (* Generate embedding *)
      rows ← model_encode c [text];
      embedding_list ← lift (at_index rows 0);
      (* Store in database *)
      returned ← store_embedding article_uuid embedding_list;
      match returned with
      | Some r => mret r
      | None =>
          mret (StoreBody article_id (length embedding_list) (lit "success")
                  (lit "Embedding generated and stored successfully"), 200)
      end
  end.

Definition generate_and_store_embedding (article_id : str) (data : pyval)
  : M response :=
  try_except (generate_and_store_embedding_body article_id data) on_error.

(** *** [/articles/batch/embedding] *)

(** [UUID(article_id)] on whatever [article_data.get('id')] gave: on a value
    that is not a string, [uuid.UUID] fails on its first string method. *)
Definition uuid_of (article_id : pyval) : res (option uuid) :=
  match article_id with
  | PStr s => Ok (UUID c s)
  | v => Raise (no_attribute v (lit "replace"))
  end.

(** One round of the loop, from the line after [article_id] is bound to the
    end of the [try] block: the entry appended to [results], and whether
    [successful_updates] goes up. *)
Definition process_article (article_data article_id : pyval)
  : M (item_result * bool) :=
  v ← lift (py_get article_data (lit "text") (PStr []));
  text ← lift (py_strip v);
  if negb (truthy article_id) || is_empty text
  then mret (ItemError article_id (lit "Missing article ID or text"), false) else
  (* Validate UUID *)
  parsed ← lift (uuid_of article_id);
  match parsed with
  | None => mret (ItemError article_id (lit "Invalid article ID format"), false)
  | Some article_uuid =>
      (* Generate embedding *)
      rows ← model_encode c [text];
      embedding_list ← lift (at_index rows 0);
      (* Find and update article *)
      article ← session_first c article_uuid;
      match article with
      | None => mret (ItemError article_id (lit "Article not found"), false)
      | Some a =>
          (* Update embedding fields *)
          _ ← session_assign c article_uuid
                (set_embedding a embedding_list (lit "success"));
          mret (ItemSuccess article_id (length embedding_list), true)
      end
  end.

Definition unbound_article_id : exn :=
  Exn NameError
    (lit "cannot access local variable 'article_id' where it is not associated with a value").

(** The [for] loop. [article_id] is the local variable of that name: [None]
    until its first assignment, and it keeps its value from one round to
    the next. The handler of the inner [try] first formats [article_id]
    for the log and then reads [article_data.get('id', 'unknown')]; either
    can raise, and what it raises leaves the loop. *)
Fixpoint process_articles (articles_data : list pyval)
    (article_id : option pyval) (results : list item_result)
    (successful_updates : nat) : M (list item_result * nat) :=
  match articles_data with
  | [] => mret (results, successful_updates)
  | article_data :: rest =>
      match py_get article_data (lit "id") PNone with
      | Raise e =>
          match article_id with
          | None => raise unbound_article_id
          | Some _ => raise (no_attribute article_data (lit "get"))
          end
      | Ok id =>
          '(entry, updated) ←
            try_except (process_article article_data id)
              (fun e =>
                 shown ← lift (py_get article_data (lit "id")
                                 (PStr (lit "unknown")));
                 mret (ItemError shown (exn_msg e), false));
          process_articles rest (Some id) (results ++ [entry])
            (if updated : bool then S successful_updates else successful_updates)
      end
  end.

Definition generate_batch_embeddings_and_store_body (data : pyval)
  : M response :=
  missing ← lift (missing_field data (lit "articles"));
  if missing : bool
  then mret (error "Missing 'articles' field in request" 400) else
  articles_data ← lift (getitem data (lit "articles"));
  if negb (is_list articles_data) || negb (truthy articles_data)
  then mret (error "Empty or invalid articles list" 400) else
  '(results, successful_updates) ←
    get_db_session c
      ('(results, successful_updates) ←
         process_articles (items articles_data) None [] 0;
       (* Commit all successful updates *)
       _ ← session_commit c;
       mret (results, successful_updates));
  mret (BatchStoreBody (length (items articles_data)) successful_updates
          results, 200).

Definition generate_batch_embeddings_and_store (data : pyval) : M response :=
  try_except (generate_batch_embeddings_and_store_body data) on_error.

End Handlers.
End App.
Import App.

(** ** The single-text classifier, [/classify] *)

Module Classify.

Inductive classify_body :=
| ClassifyError (error : str)
| ClassifyBody (text : str) (is_article : bool) (confidence : float)
    (sentiment_scores : pyval)
    (text_length cleaned_text_length word_count : nat).

Section Handler.
Variable c : collab.

Definition classify_content_body (data : pyval) : M (classify_body * nat) :=
  missing ← lift (missing_field data (lit "text"));
  if missing : bool
  then mret (ClassifyError (lit "Missing 'text' field in request"), 400) else
  text ← lift (getitem data (lit "text"));
  keep ← lift (nonblank text);
  if negb keep then mret (ClassifyError (lit "Empty text provided"), 400) else
  (* Clean and prepare text for classification *)
  original ← lift (as_str text);
  let cleaned_text := clean_text_for_classification original in
  result ← run_classifier c cleaned_text;
  (* Calculate article-worthiness based on multiple factors *)
  article_score ← lift (calculate_article_score original result);
  mret (ClassifyBody (preview original) (gtb article_score f0_5) article_score
          result (length original) (length cleaned_text)
          (length (split cleaned_text)), 200).

Definition classify_content (data : pyval) : M (classify_body * nat) :=
  try_except (classify_content_body data)
    (fun e => mret (ClassifyError (lit "Internal server error"), 500)).

End Handler.
End Classify.
Import Classify.

(** ** Notions the properties are stated with *)

(** A character that, if it is white space, is the plain space *)
Definition plain (ch : N) : Prop := isspace ch = true -> ch = 32%N.

(** [{"text": text}] *)
Definition text_request (text : str) : pyval :=
  PDict [(lit "text", PStr text)].

(** [sum(original_text.count(i) for i in structure_indicators)] *)
Definition structure_count (text : str) : nat :=
  list_sum (List.map (fun indicator => count indicator text)
              structure_indicators).

(** The columns of a row other than [embedding], [embedding_status] and
    [updated_at] *)
Definition other_columns (a : Article) :=
  (user_id a, url a, title a, description a, image_url a, content a,
   word_count a, metadata_status a, retry_count a, confidence_score a,
   classifier_used a, created_at a).

(** Every column of a row other than [updated_at] *)
Definition columns_but_updated_at (a : Article) :=
  (other_columns a, embedding a, embedding_status a).

(** [t'] has the rows of [t], each with its other columns as in [t]. *)
Definition rows_kept (t t' : table) : Prop :=
  forall u : uuid, other_columns <$> (t !! u) = other_columns <$> (t' !! u).

(** A step of a session leaves the committed rows alone and keeps the rows
    the session sees. *)
Definition round_ok (w w' : world) : Prop :=
  db w' = db w /\ rows_kept (session w) (session w').

Definition is_dict (v : pyval) : bool :=
  match v with PDict _ => true | _ => false end.

Definition is_str (v : pyval) : bool :=
  match v with PStr _ => true | _ => false end.

Definition is_success (r : item_result) : bool :=
  match r with ItemSuccess _ _ => true | ItemError _ _ => false end.

(** The number of success entries of a result list *)
Definition successes (results : list item_result) : nat :=
  length (List.filter is_success results).

(** ** Request bodies *)

(** [{"id": id, "text": text}] *)
Definition item (it : str * str) : pyval :=
  PDict [(lit "id", PStr (fst it)); (lit "text", PStr (snd it))].

(** [{"articles": [...]}] *)
Definition articles (l : list (str * str)) : pyval :=
  PDict [(lit "articles", PList (List.map item l))].

(** [{"texts": [...]}] *)
Definition texts (l : list str) : pyval :=
  PDict [(lit "texts", PList (List.map PStr l))].

(** ** The batch store as the specification words it, item by item

    Validate the id and the text, compute the embedding, look the row up,
    update it; every item gets an entry, and the rows updated are committed
    together. [batch_store_run] compares the handler with this. *)

Module BatchSpec.
Section BatchSpec.
Variable c : collab.

(** An item passes validation when its id and its stripped text are not
    empty and the id is a UUID. *)
Definition valid_item (it : str * str) : option (uuid * str) :=
  if is_empty (fst it) || is_empty (strip (snd it)) then None
  else (fun u => (u, strip (snd it))) <$> UUID c (fst it).

(** The row it names and the embedding the model gives for it *)
Definition computed (it : str * str) : option (uuid * list float) :=
  match valid_item it with
  | Some (u, text) =>
      match encode c [text] with
      | Ok (e :: _) => Some (u, e)
      | _ => None
      end
  | None => None
  end.

(** The item updates a row of [t]. *)
Definition succeeded (t : table) (it : str * str) : bool :=
  match computed it with
  | Some (u, _) => bool_decide (is_Some (t !! u))
  | None => false
  end.

Definition apply_item (t : table) (it : str * str) : table :=
  match computed it with
  | Some (u, e) =>
      match t !! u with
      | Some a => <[u := written c a e]> t
      | None => t
      end
  | None => t
  end.

(** The embedding of the last item of [l] that names row [u] *)
Fixpoint last_embedding (u : uuid) (l : list (str * str)) : option (list float) :=
  match l with
  | [] => None
  | it :: l' =>
      match last_embedding u l' with
      | Some e => Some e
      | None =>
          match computed it with
          | Some (u', e) => if (u =? u')%N then Some e else None
          | None => None
          end
      end
  end.

(** The entry of the result list for an item *)
Definition report (t : table) (it : str * str) : item_result :=
  let id := PStr (fst it) in
  if is_empty (fst it) || is_empty (strip (snd it))
  then ItemError id (lit "Missing article ID or text")
  else match UUID c (fst it) with
       | None => ItemError id (lit "Invalid article ID format")
       | Some u =>
           match encode c [strip (snd it)] with
           | Raise e => ItemError id (exn_msg e)
           | Ok [] => ItemError id (exn_msg index_error)
           | Ok (e :: _) =>
               match t !! u with
               | None => ItemError id (lit "Article not found")
               | Some _ => ItemSuccess id (length e)
               end
           end
       end.

End BatchSpec.
End BatchSpec.
Import BatchSpec.

(** The model invocations of the batch store on a list of items: one for
    each item that passes validation, on its stripped text alone. *)
Definition item_calls (c : collab) (it : str * str) : list call :=
  match valid_item c it with
  | Some (_, text) => [Encode [text]]
  | None => []
  end.

Definition encode_calls (c : collab) (l : list (str * str)) : list call :=
  flat_map (item_calls c) l.

(** ** What the batch handlers keep of a list of strings *)

(** The stripped texts that are not blank, in order *)
Definition survivors (l : list str) : list str :=
  List.filter (fun s => negb (is_empty s)) (List.map strip l).

(** The non-blank texts of a list with the positions they have in it,
    counted from [i] *)
Fixpoint survivors_from (i : nat) (l : list str) : list (nat * str) :=
  match l with
  | [] => []
  | s :: l' =>
      if is_empty (strip s) then survivors_from (S i) l'
      else (i, s) :: survivors_from (S i) l'
  end.

(** The classifier answers the text with a result of the pipeline's shape. *)
Definition classifiable (c : collab) (s : str) : Prop :=
  exists classification,
    classifier c (clean_text_for_classification (strip s)) = Ok classification
    /\ well_formed classification = true.


(** What a result of the batch says about the text it stands for *)
Definition computed_from (c : collab) (r : classify_result) (p : nat * str)
  : Prop :=
  cr_index r = fst p /\
  cr_text r = preview (snd p) /\
  exists classification,
    classifier c (clean_text_for_classification (strip (snd p)))
    = Ok classification /\
    calculate_article_score (snd p) classification = Ok (cr_confidence r) /\
    cr_is_article r = gtb (cr_confidence r) f0_5.

(** ** Sample collaborators, for running the handlers on concrete requests *)

Module Sample.

Definition hex_value (ch : N) : option N :=
  if Re.range "0" "9" ch then Some (ch - 48)%N
  else if Re.range "a" "f" ch then Some (ch - 87)%N
  else if Re.range "A" "F" ch then Some (ch - 55)%N
  else None.

Fixpoint hex_number (acc : N) (s : str) : option N :=
  match s with
  | [] => Some acc
  | ch :: s' => match hex_value ch with
                | Some d => hex_number (16 * acc + d)%N s'
                | None => None
                end
  end.

(** A parser for the usual form of a UUID: 32 hexadecimal digits once the
    hyphens are removed. [uuid.UUID] accepts these strings, with the same
    value. *)
Definition hex_uuid (s : str) : option uuid :=
  let digits := List.filter (fun ch => negb (ch =? 45)%N) s in
  if length digits =? 32 then hex_number 0%N digits else None.

Definition vector_of (text : str) : list float :=
  [f0_1; f0_2; f0_3; f0_5].

Definition sentiment (positive negative : float) : pyval :=
  PList [PList [PDict [(lit "label", PStr (lit "NEGATIVE"));
                       (lit "score", PFloat negative)];
                PDict [(lit "label", PStr (lit "POSITIVE"));
                       (lit "score", PFloat positive)]]].

Definition healthy : collab :=
  {| UUID := hex_uuid;
     encode := fun texts => Ok (List.map vector_of texts);
     classifier := fun text => Ok (sentiment f0_8 f0_2);
     query_fault := fun _ => None;
     commit_fault := None;
     now := 1700000000 |}.

(** The embedding model fails with the given message. *)
Definition model_down (detail : string) : collab :=
  {| UUID := hex_uuid;
     encode := fun texts => Raise (Exn OtherError (lit detail));
     classifier := fun text => Raise (Exn OtherError (lit detail));
     query_fault := fun _ => None;
     commit_fault := None;
     now := 1700000000 |}.

(** Storage whose commit fails *)
Definition commit_down : collab :=
  {| UUID := hex_uuid;
     encode := fun texts => Ok (List.map vector_of texts);
     classifier := fun text => Ok (sentiment f0_8 f0_2);
     query_fault := fun _ => None;
     commit_fault := Some (Exn SQLAlchemyError (lit "connection lost"));
     now := 1700000000 |}.

Definition id1 : str := lit "123e4567-e89b-12d3-a456-426614174000".
Definition id2 : str := lit "00000000-0000-0000-0000-000000000002".

Definition row (link : string) : Article :=
  {| user_id := 7%N; url := lit link; title := None; description := None;
     image_url := None; content := None; word_count := 0%Z;
     metadata_status := lit "pending"; retry_count := 0%Z;
     confidence_score := f0_0; classifier_used := None;
     embedding := None; embedding_status := Some (lit "pending");
     created_at := 1600000000; updated_at := 1600000000 |}.

Definition rows1 : table :=
  match hex_uuid id1 with
  | Some u => {[ u := row "https://example.org/a" ]}
  | None => ∅
  end.

Definition start (t : table) : world := World t t [].

End Sample.

Import Sample.

(** * Properties *)

(** ** The scorer *)

Section ScorerFacts.

Lemma ltb_leb (x y : float) : ltb x y = true -> leb x y = true.
Proof.
  unfold ltb, leb, SFltb, SFleb.
  destruct (SFcompare x y) as [[]|]; congruence.
Qed.

(** The last line of the scorer lands in the unit interval whatever the
    sum is: a number, an infinity or a NaN. *)
Lemma clamp_in_unit (total : float) : in_unit (clamp total) = true.
Proof.
  unfold clamp, py_min, py_max, gtb.
  destruct (ltb total f1_0) eqn:Hhi.
  - destruct (ltb f0_0 total) eqn:Hlo; [|reflexivity].
    unfold in_unit. now rewrite (ltb_leb _ _ Hlo), (ltb_leb _ _ Hhi).
  - reflexivity.
Qed.

Lemma score_unfold text sr :
  calculate_article_score text sr =
  match sentiment_factor sr (word_factor text (length_factor text f0_0)) with
  | Ok b => Ok (clamp (add (structure_factor text b) f0_5))
  | Raise e => Raise e
  end.
Proof. reflexivity. Qed.

Lemma sentiment_step_total b e :
  entry_ok e = true -> exists b', sentiment_step b e = Ok b'.
Proof.
  destruct e as [| | | |d]; try discriminate. unfold entry_ok, sentiment_step.
  simpl. destruct (assoc (lit "label") d) as [l|]; [|discriminate].
  unfold mbind, res_bind.
  destruct (eq_str l (lit "POSITIVE")); simpl.
  - destruct (assoc (lit "score") d) as [[]|]; try discriminate. eauto.
  - destruct (eq_str l (lit "NEGATIVE")); simpl; [|eauto].
    destruct (assoc (lit "score") d) as [[]|]; try discriminate. eauto.
Qed.

Lemma sentiment_loop_total entries :
  forallb entry_ok entries = true ->
  forall b, exists b', sentiment_loop entries b = Ok b'.
Proof.
  induction entries as [|e entries IH]; simpl; intros H b; [eauto|].
  apply andb_true_iff in H as [He Hes].
  destruct (sentiment_step_total b e He) as [b1 ->]. apply (IH Hes).
Qed.

Lemma sentiment_factor_total sr b :
  well_formed sr = true -> exists b', sentiment_factor sr b = Ok b'.
Proof.
  unfold well_formed, sentiment_factor. intros H.
  destruct (truthy sr) eqn:Ht; [|eauto]. simpl in H.
  destruct sr as [| | |[|[| | |entries|] more]|]; try discriminate.
  simpl. now apply sentiment_loop_total.
Qed.

Lemma score_total text sr :
  well_formed sr = true -> exists r, calculate_article_score text sr = Ok r.
Proof.
  intros H. rewrite score_unfold.
  destruct (sentiment_factor_total sr
              (word_factor text (length_factor text f0_0)) H) as [b ->].
  eauto.
Qed.

(** C1. For every original text and every classification result, a score
    the scorer returns lies in [0.0, 1.0]; and it does return one on every
    classification result of the pipeline's shape, the empty ones
    included. *)
Theorem score_in_unit_interval (text : str) (sr : pyval) :
  (forall r, calculate_article_score text sr = Ok r -> in_unit r = true) /\
  (well_formed sr = true ->
   exists r, calculate_article_score text sr = Ok r /\ in_unit r = true).
Proof.
  rewrite score_unfold. split.
  - intros r. destruct (sentiment_factor _ _); [|discriminate].
    intros [= <-]. apply clamp_in_unit.
  - intros H. rewrite <- score_unfold.
    destruct (score_total text sr H) as [r Hr].
    exists r. split; [exact Hr|].
    rewrite score_unfold in Hr.
    destruct (sentiment_factor _ _); [|discriminate].
    injection Hr as <-. apply clamp_in_unit.
Qed.

Lemma score_in_unit_interval_witness :
  exists r, calculate_article_score (lit "Short.") (PList []) = Ok r
            /\ in_unit r = true.
Proof.
  apply (proj2 (score_in_unit_interval (lit "Short.") (PList []))).
  reflexivity.
Defined.








End ScorerFacts.

(** ** The normaliser *)

Section NormalizerFacts.

Lemma lstrip_length s : length (lstrip s) <= length s.
Proof. induction s as [|ch s IH]; simpl; [lia|]. destruct (isspace ch); simpl; lia. Qed.

Lemma rstrip_length s : length (rstrip s) <= length s.
Proof.
  induction s as [|ch s IH]; simpl; [lia|].
  destruct (rstrip s); [destruct (isspace ch)|]; simpl in *; lia.
Qed.

Lemma strip_length s : length (strip s) <= length s.
Proof.
  unfold strip. pose proof (rstrip_length (lstrip s)). pose proof (lstrip_length s). lia.
Qed.

Lemma truncated_length (t : str) :
  500 < length t ->
  length (firstn 400 t ++ lit " " ++ last_chars 100 t) = 501.
Proof.
  intros H. unfold last_chars.
  rewrite !length_app, length_firstn, length_skipn.
  change (length (lit " ")) with 1. lia.
Qed.

(** C10. The normaliser's output has at most 501 characters, and 501 is
    reached: the text it cuts at 500 is replaced by 400 + 1 + 100
    characters. *)
Theorem clean_text_length_bound :
  (forall text, length (clean_text_for_classification text) <= 501) /\
  (exists text, length (clean_text_for_classification text) = 501).
Proof.
  split.
  - intros text. unfold clean_text_for_classification.
    set (t := Re.sub Re.email [] _).
    etransitivity; [apply strip_length|].
    destruct (500 <? length t) eqn:H.
    + apply Nat.ltb_lt in H. rewrite (truncated_length t H). lia.
    + apply Nat.ltb_ge in H. lia.
  - exists (repeat 97%N 501). vm_compute. reflexivity.
Qed.

(** C4, as stated, fails: removing a URL leaves the two spaces around it
    side by side, and a second pass collapses them. *)
Lemma clean_text_not_idempotent :
  clean_text_for_classification (lit "a http://x.com b") = lit "a  b" /\
  clean_text_for_classification
    (clean_text_for_classification (lit "a http://x.com b")) = lit "a b".
Proof. split; vm_compute; reflexivity. Qed.

#[local] Arguments isspace : simpl never.

Lemma run_le p s : Re.run p s <= length s.
Proof. induction s as [|ch s IH]; simpl; [lia|]. destruct (p ch); simpl; lia. Qed.

(** What [re] finds for [[class]+]: the longest run of the class. *)
Lemma rounds_class p : forall fuel s,
  length s <= fuel ->
  head (Re.rounds (Re.matches (Re.Chr p)) fuel s) =
  match Re.run p s with
  | O => None
  | n => Some (skipn n s)
  end.
Proof.
  induction fuel as [|fuel IH]; intros [|ch s] Hl; simpl in *; try reflexivity; [lia|].
  destruct (p ch); [|reflexivity]. simpl. rewrite app_nil_r.
  specialize (IH s ltac:(lia)).
  destruct (Re.rounds _ fuel s) as [|x xs];
    destruct (Re.run p s) as [|n]; simpl in *; congruence || reflexivity.
Qed.

Lemma exec_class_plus p s :
  Re.exec (Re.Plus (Re.Chr p)) s =
  match Re.run p s with
  | O => None
  | n => Some n
  end.
Proof.
  unfold Re.exec.
  change (Re.matches (Re.Plus (Re.Chr p)) s)
    with (Re.rounds (Re.matches (Re.Chr p)) (length s) s).
  pose proof (rounds_class p (length s) s (le_n _)) as H.
  pose proof (run_le p s) as Hr.
  destruct (Re.rounds (Re.matches (Re.Chr p)) (length s) s) as [|x xs];
    simpl in H; destruct (Re.run p s) as [|n]; try discriminate; [reflexivity|].
  injection H as ->. rewrite length_skipn. f_equal. lia.
Qed.

Lemma skip_run repl s :
  Re.sub_from Re.whitespace repl (Re.run isspace s) s =
  Re.sub_from Re.whitespace repl 0 (lstrip s).
Proof.
  induction s as [|ch s IH]; [reflexivity|].
  simpl. destruct (isspace ch); [exact IH|reflexivity].
Qed.

Lemma sub_whitespace_cons ch s :
  Re.sub Re.whitespace (lit " ") (ch :: s) =
  if isspace ch then 32%N :: Re.sub Re.whitespace (lit " ") (lstrip s)
  else ch :: Re.sub Re.whitespace (lit " ") s.
Proof.
  unfold Re.sub at 1. cbn [Re.sub_from]. unfold Re.whitespace at 1.
  rewrite exec_class_plus. cbn [Re.run].
  destruct (isspace ch); [|reflexivity].
  fold Re.whitespace. now rewrite skip_run.
Qed.

Lemma lstrip_fixed s : hd_ok s = true -> lstrip s = s.
Proof. destruct s as [|ch s]; simpl; [reflexivity|]. now destruct (isspace ch). Qed.

Lemma hd_ok_lstrip s : hd_ok (lstrip s) = true.
Proof.
  induction s as [|ch s IH]; simpl; [reflexivity|].
  destruct (isspace ch) eqn:E; [exact IH|]. simpl. now rewrite E.
Qed.

Lemma rstrip_cons ch s :
  rstrip (ch :: s) = [] \/ exists r, rstrip (ch :: s) = ch :: r.
Proof.
  simpl. destruct (rstrip s); [destruct (isspace ch)|]; eauto.
Qed.

Lemma hd_ok_rstrip s : hd_ok s = true -> hd_ok (rstrip s) = true.
Proof.
  destruct s as [|ch s]; [reflexivity|]. intros H.
  destruct (rstrip_cons ch s) as [->|[r ->]]; [reflexivity|exact H].
Qed.

Lemma rstrip_idempotent s : rstrip (rstrip s) = rstrip s.
Proof.
  induction s as [|ch s IH]; [reflexivity|]. simpl.
  destruct (rstrip s) as [|d r] eqn:E.
  - destruct (isspace ch) eqn:Hc; simpl; [reflexivity|now rewrite Hc].
  - change (rstrip (ch :: d :: r)) with
      (match rstrip (d :: r) with
       | [] => if isspace ch then [] else [ch]
       | x => ch :: x
       end).
    now rewrite IH.
Qed.

Lemma hd_ok_strip s : hd_ok (strip s) = true.
Proof. apply hd_ok_rstrip, hd_ok_lstrip. Qed.

Lemma rstrip_strip s : rstrip (strip s) = strip s.
Proof. apply rstrip_idempotent. Qed.

Lemma strip_fixed s : hd_ok s = true -> rstrip s = s -> strip s = s.
Proof. intros H1 H2. unfold strip. now rewrite (lstrip_fixed s H1). Qed.

Lemma tidy_fixed s : tidy s = true -> Re.sub Re.whitespace (lit " ") s = s.
Proof.
  induction s as [|ch s IH]; [reflexivity|].
  simpl. rewrite sub_whitespace_cons. intros H.
  apply andb_true_iff in H as [H1 H2].
  destruct (isspace ch).
  - apply andb_true_iff in H1 as [->%N.eqb_eq Hs].
    now rewrite (lstrip_fixed s Hs), (IH H2).
  - now rewrite (IH H2).
Qed.

Lemma hd_ok_sub s : hd_ok s = true -> hd_ok (Re.sub Re.whitespace (lit " ") s) = true.
Proof.
  destruct s as [|ch s]; [reflexivity|]. rewrite sub_whitespace_cons. simpl.
  destruct (isspace ch) eqn:E; [discriminate|]. simpl. now rewrite E.
Qed.

Lemma sub_whitespace_nonempty s :
  s <> [] -> Re.sub Re.whitespace (lit " ") s <> [].
Proof.
  destruct s as [|ch s]; [congruence|]. intros _.
  rewrite sub_whitespace_cons. now destruct (isspace ch).
Qed.

Lemma tidy_sub_bounded n : forall s,
  length s <= n -> tidy (Re.sub Re.whitespace (lit " ") s) = true.
Proof.
  induction n as [|n IH]; intros [|ch s] Hn; try reflexivity; simpl in Hn; [lia|].
  rewrite sub_whitespace_cons. destruct (isspace ch) eqn:E.
  - simpl. change (isspace 32) with true. simpl.
    rewrite hd_ok_sub by apply hd_ok_lstrip. simpl.
    apply IH. pose proof (lstrip_length s). lia.
  - simpl. rewrite E. simpl. apply IH. lia.
Qed.

Lemma tidy_sub s : tidy (Re.sub Re.whitespace (lit " ") s) = true.
Proof. now apply (tidy_sub_bounded (length s)). Qed.

Lemma rstrip_fixed_cons ch s :
  rstrip (ch :: s) = ch :: s ->
  (s = [] /\ isspace ch = false) \/ (s <> [] /\ rstrip s = s).
Proof.
  simpl. destruct (rstrip s) as [|d r] eqn:E.
  - destruct (isspace ch); [discriminate|]. intros [= <-]. now left.
  - intros [= <-]. right. split; congruence.
Qed.

Lemma cons_rstrip_fixed ch s :
  s <> [] -> rstrip s = s -> rstrip (ch :: s) = ch :: s.
Proof. intros Hs E. simpl. rewrite E. destruct s; congruence. Qed.

Lemma rstrip_fixed_lstrip s :
  s <> [] -> rstrip s = s -> lstrip s <> [] /\ rstrip (lstrip s) = lstrip s.
Proof.
  induction s as [|ch s IH]; [congruence|]. intros _ H. simpl.
  destruct (isspace ch) eqn:E; [|split; [congruence|exact H]].
  destruct (rstrip_fixed_cons ch s H) as [[_ Hc]|[Hs Hr]]; [congruence|].
  now apply IH.
Qed.

Lemma rstrip_sub_bounded n : forall s,
  length s <= n -> rstrip s = s ->
  rstrip (Re.sub Re.whitespace (lit " ") s) = Re.sub Re.whitespace (lit " ") s.
Proof.
  induction n as [|n IH]; intros [|ch s] Hn H; try reflexivity; simpl in Hn; [lia|].
  rewrite sub_whitespace_cons.
  destruct (rstrip_fixed_cons ch s H) as [[-> Hc]|[Hs Hr]].
  - rewrite Hc. simpl. now rewrite Hc.
  - destruct (isspace ch) eqn:E.
    + destruct (rstrip_fixed_lstrip s Hs Hr) as [Hl Hlr].
      apply cons_rstrip_fixed; [now apply sub_whitespace_nonempty|].
      apply IH; [|exact Hlr]. pose proof (lstrip_length s). lia.
    + apply cons_rstrip_fixed; [now apply sub_whitespace_nonempty|].
      apply IH; [lia|exact Hr].
Qed.

Lemma collapsed_fixed text :
  strip (collapsed text) = collapsed text /\
  collapsed (collapsed text) = collapsed text.
Proof.
  assert (S : strip (collapsed text) = collapsed text).
  { unfold collapsed. apply strip_fixed.
    - apply hd_ok_sub, hd_ok_strip.
    - apply (rstrip_sub_bounded (length (strip text))); [lia|apply rstrip_strip]. }
  split; [exact S|].
  unfold collapsed at 1. rewrite S. apply tidy_fixed. apply tidy_sub.
Qed.

(** C4, amended. The normaliser is idempotent on every text in which,
    once its white space is collapsed, neither the URL pattern nor the
    e-mail pattern matches and which then has at most 500 characters: on
    such a text it only collapses and trims white space. *)
Theorem clean_text_idempotent_when_nothing_removed (text : str) :
  Re.sub Re.url [] (collapsed text) = collapsed text ->
  Re.sub Re.email [] (collapsed text) = collapsed text ->
  length (collapsed text) <= 500 ->
  clean_text_for_classification text = collapsed text /\
  clean_text_for_classification (clean_text_for_classification text)
  = clean_text_for_classification text.
Proof.
  intros Hu He Hl.
  assert (F : forall t, collapsed t = collapsed text ->
                        clean_text_for_classification t = collapsed text).
  { intros t Ht. unfold clean_text_for_classification.
    fold (collapsed t). rewrite Ht, Hu, He.
    replace (500 <? length (collapsed text)) with false
      by (symmetry; apply Nat.ltb_ge; lia).
    apply collapsed_fixed. }
  split; [now apply F|].
  rewrite (F text eq_refl). apply F. apply collapsed_fixed.
Qed.

Lemma clean_text_idempotent_when_nothing_removed_witness :
  clean_text_for_classification
    (clean_text_for_classification (lit "  two   words "))
  = clean_text_for_classification (lit "  two   words ").
Proof.
  apply (clean_text_idempotent_when_nothing_removed (lit "  two   words "));
    vm_compute; [reflexivity|reflexivity|].
  repeat constructor.
Defined.

End NormalizerFacts.

(** ** The handlers *)

Ltac munfold :=
  unfold mbind, mret, fmap, M_bind, M_ret, res_bind, res_ret, res_fmap,
    lift, raise, try_except, try_finally in *.

Section EmbedBatchFacts.
Variable c : collab.

Lemma nonblank_str s : nonblank (PStr s) = Ok (negb (is_empty (strip s))).
Proof.
  unfold nonblank. destruct s as [|ch s]; [reflexivity|].
  simpl. munfold. now destruct (strip (ch :: s)).
Qed.

Lemma strip_nonblank_strs l : strip_nonblank (List.map PStr l) = Ok (survivors l).
Proof.
  induction l as [|s l IH]; [reflexivity|].
  simpl. rewrite nonblank_str. unfold survivors in *. simpl. munfold.
  destruct (is_empty (strip s)); simpl; now rewrite IH.
Qed.

(** C7, as stated, fails: a list whose entries are all blank is answered
    with 400, not with a success response of dimension 0. *)
Lemma all_blank_batch_is_rejected :
  fst (generate_batch_embeddings healthy (texts [[]; lit "   "]) (start ∅))
  = Ok (error "No valid texts provided" 400).
Proof. reflexivity. Qed.

(** C7, amended. With [texts] in the request: the handler answers 400 when
    the value is not a list, is the empty list, or is a list of strings
    that are all blank, and then it does not call the model. On a list of
    strings with a survivor it calls the model once, on the stripped
    non-blank texts in order, and answers 200 with these texts, the rows
    the model gave, their number and the length of the first row (500 if
    the model raised). A success response therefore never has an empty
    list of texts. *)
Theorem embed_batch_outcomes (w : world) (v : pyval) :
  let request := PDict [(lit "texts", v)] in
  (is_list v = false \/ v = PList [] ->
   generate_batch_embeddings c request w
   = (Ok (error "Empty or invalid texts list" 400), w)) /\
  (forall l, v = PList (List.map PStr l) -> l <> [] -> survivors l = [] ->
   generate_batch_embeddings c request w
   = (Ok (error "No valid texts provided" 400), w)) /\
  (forall l, v = PList (List.map PStr l) -> survivors l <> [] ->
   generate_batch_embeddings c request w
   = (Ok match encode c (survivors l) with
         | Ok rows =>
             (EmbedBatchBody (survivors l) rows (length rows)
                match rows with first :: _ => length first | [] => 0 end, 200)
         | Raise _ => error "Internal server error" 500
         end,
      World (db w) (session w) (Encode (survivors l) :: calls w))).
Proof.
  intros request. unfold generate_batch_embeddings, generate_batch_embeddings_body.
  repeat split.
  - intros [H| ->]; munfold; simpl.
    + now rewrite H.
    + reflexivity.
  - intros l -> Hl Hs. munfold. simpl.
    destruct l as [|s l]; [congruence|].
    now rewrite strip_nonblank_strs, Hs.
  - intros l -> Hs. munfold. simpl.
    destruct l as [|s l]; [now destruct Hs|].
    rewrite strip_nonblank_strs.
    destruct (survivors (s :: l)) as [|t ts] eqn:E; [now destruct Hs|].
    simpl. unfold model_encode. now destruct (encode c (t :: ts)).
Qed.

End EmbedBatchFacts.

Lemma embed_batch_outcomes_witness :
  generate_batch_embeddings healthy (texts [lit " a "; []; lit "b"]) (start ∅)
  = (Ok (EmbedBatchBody [lit "a"; lit "b"]
           [vector_of (lit "a"); vector_of (lit "b")] 2 4, 200),
     World ∅ ∅ [Encode [lit "a"; lit "b"]]).
Proof.
  apply (proj2 (proj2 (embed_batch_outcomes healthy (start ∅)
                         (PList (List.map PStr [lit " a "; []; lit "b"]))))
           [lit " a "; []; lit "b"]).
  - reflexivity.
  - discriminate.
Defined.

Section StoreFacts.
Variable c : collab.

Lemma on_error_world e w : snd (on_error e w) = w.
Proof. unfold on_error. now destruct (exn_cls e). Qed.

(** With no row for [u], the [with] block leaves the committed rows as they
    were, whatever storage does. *)
Lemma store_embedding_absent u e w :
  db w !! u = None -> db (snd (store_embedding c u e w)) = db w.
Proof.
  intros H. unfold store_embedding, get_db_session, session_open, session_first,
    session_commit, session_rollback, session_close.
  munfold. simpl.
  destruct (query_fault c u); simpl; [reflexivity|].
  rewrite H. simpl. now destruct (commit_fault c).
Qed.

Lemma store_embedding_not_found u e w :
  db w !! u = None -> query_fault c u = None -> commit_fault c = None ->
  fst (store_embedding c u e w) = Ok (Some (error "Article not found" 404)).
Proof.
  intros H Hq Hc. unfold store_embedding, get_db_session, session_open,
    session_first, session_commit, session_rollback, session_close.
  munfold. simpl. rewrite Hq. simpl. rewrite H. simpl. now rewrite Hc.
Qed.

(** C6. For a well-formed UUID with no article row, the handler leaves the
    stored table unchanged; and on a request with a non-blank text, with
    the model and storage working, it answers 404 "Article not found". *)
Theorem store_absent_record (w : world) (article_id : str) (data : pyval)
    (u : uuid) :
  UUID c article_id = Some u ->
  db w !! u = None ->
  db (snd (generate_and_store_embedding c article_id data w)) = db w /\
  (forall d text e rows,
     data = PDict d -> assoc (lit "text") d = Some (PStr text) ->
     strip text <> [] ->
     encode c [strip text] = Ok (e :: rows) ->
     query_fault c u = None -> commit_fault c = None ->
     fst (generate_and_store_embedding c article_id data w)
     = Ok (error "Article not found" 404)).
Proof.
  intros HU Hdb. split.
  - unfold generate_and_store_embedding, generate_and_store_embedding_body.
    rewrite HU. unfold try_except at 1.
    match goal with |- context [match ?m w with _ => _ end] =>
      assert (D : db (snd (m w)) = db w); [|destruct (m w) as [[r|e] w'] eqn:E] end.
    + munfold. destruct (missing_field data (lit "text")) as [[|]|]; try reflexivity.
      destruct (py_get data (lit "text") (PStr [])) as [v|]; [|reflexivity].
      destruct (py_strip v) as [text|]; [|reflexivity].
      destruct (is_empty text); [reflexivity|].
      unfold model_encode. destruct (encode c [text]) as [rows|]; [|reflexivity].
      destruct (at_index rows 0) as [e|]; [|reflexivity].
      simpl.
      match goal with |- context [store_embedding c u e ?w0] =>
        pose proof (store_embedding_absent u e w0 Hdb) as S;
        destruct (store_embedding c u e w0) as [[[r|]|x] w1]
      end; exact S.
    + exact D.
    + rewrite on_error_world. exact D.
  - intros d text e rows -> Hd Htext He Hq Hc.
    unfold generate_and_store_embedding, generate_and_store_embedding_body.
    rewrite HU. munfold. unfold missing_field, contains, has_key, py_get. simpl.
    destruct d as [|kv d]; [discriminate|]. simpl truthy. cbv iota.
    rewrite Hd. simpl.
    destruct (strip text) as [|ch t] eqn:Es; [congruence|]. simpl.
    unfold model_encode. rewrite He. simpl.
    match goal with |- context [store_embedding c u e ?w0] =>
      pose proof (store_embedding_not_found u e w0 Hdb Hq Hc) as S;
      destruct (store_embedding c u e w0) as [[r|x] w1]
    end; simpl in S; [|discriminate].
    injection S as ->. reflexivity.
Qed.

End StoreFacts.

Lemma store_absent_record_witness :
  db (snd (generate_and_store_embedding healthy id2
             (PDict [(lit "text", PStr (lit "hello"))]) (start rows1)))
  = rows1 /\
  fst (generate_and_store_embedding healthy id2
         (PDict [(lit "text", PStr (lit "hello"))]) (start rows1))
  = Ok (error "Article not found" 404).
Proof.
  destruct (store_absent_record healthy (start rows1) id2
              (PDict [(lit "text", PStr (lit "hello"))]) 2%N
              eq_refl eq_refl) as [H1 H2].
  split; [exact H1|].
  apply (H2 [(lit "text", PStr (lit "hello"))] (lit "hello")
           (vector_of (lit "hello")) []);
    reflexivity || discriminate.
Defined.

Section ClassifyBatchFacts.
Variable c : collab.

Lemma filter_and_clean_strs l : forall i,
  filter_and_clean i (List.map PStr l)
  = Ok (List.map (fun p => clean_text_for_classification (strip (snd p)))
          (survivors_from i l),
        List.map fst (survivors_from i l)).
Proof.
  induction l as [|s l IH]; intros i; [reflexivity|].
  simpl. rewrite nonblank_str. munfold. simpl.
  rewrite IH. now destruct (is_empty (strip s)).
Qed.

Lemma survivors_from_spec l : forall i j s,
  In (j, s) (survivors_from i l) <->
  i <= j /\ l !! (j - i) = Some s /\ is_empty (strip s) = false.
Proof.
  induction l as [|t l IH]; intros i j s; simpl.
  - split; [tauto|]. intros (_ & H & _). discriminate.
  - assert (R : In (j, s) (survivors_from (S i) l) <->
                S i <= j /\ (t :: l) !! (j - i) = Some s
                /\ is_empty (strip s) = false).
    { rewrite IH. split; intros (H1 & H2 & H3); repeat split; try lia; auto.
      - replace (j - i) with (S (j - S i)) by lia. exact H2.
      - replace (j - i) with (S (j - S i)) in H2 by lia. exact H2. }
    destruct (is_empty (strip t)) eqn:E; simpl; rewrite R.
    + split; [intros (H1 & H2 & H3); repeat split; auto; lia|].
      intros (H1 & H2 & H3). destruct (decide (i = j)) as [->|].
      * rewrite Nat.sub_diag in H2. simpl in H2. congruence.
      * repeat split; auto; lia.
    + split.
      * intros [[= -> ->]|(H1 & H2 & H3)].
        -- rewrite Nat.sub_diag. auto.
        -- repeat split; auto; lia.
      * intros (H1 & H2 & H3). destruct (decide (i = j)) as [->|].
        -- rewrite Nat.sub_diag in H2. simpl in H2. left. congruence.
        -- right. repeat split; auto; lia.
Qed.

Lemma computed_from_indices results ps :
  Forall2 (computed_from c) results ps ->
  List.map cr_index results = List.map fst ps.
Proof.
  induction 1 as [|r p rs ps Hr _ IH]; [reflexivity|].
  simpl. destruct Hr as [-> _]. now rewrite IH.
Qed.

Lemma classify_all_run (all : list pyval) (indices : list nat) :
  forall (ps : list (nat * str)) (k : nat) (w : world),
  drop k indices = List.map fst ps ->
  (forall j s, In (j, s) ps -> all !! j = Some (PStr s) /\ classifiable c s) ->
  exists results w',
    classify_all c all indices k
      (List.map (fun p => clean_text_for_classification (strip (snd p))) ps) w
    = (Ok results, w')
    /\ Forall2 (computed_from c) results ps.
Proof.
  induction ps as [|[j s] ps IH]; intros k w Hd Hps.
  - exists [], w. split; [reflexivity|constructor].
  - simpl in Hd.
    assert (Hk : indices !! k = Some j).
    { rewrite <- (Nat.add_0_r k), <- lookup_drop, Hd. reflexivity. }
    assert (Hd' : drop (S k) indices = List.map fst ps).
    { rewrite (drop_S _ _ _ Hk) in Hd. now injection Hd. }
    destruct (Hps j s (or_introl eq_refl)) as [Hj [cr [Hcr Hwf]]].
    destruct (score_total s cr Hwf) as [score Hscore].
    destruct (IH (S k) (World (db w) (session w)
                          (Classify (clean_text_for_classification (strip s))
                             :: calls w)) Hd')
      as (results & w' & Hrun & Hall).
    { intros j' s' Hin. apply Hps. now right. }
    eexists (_ :: results), w'. split.
    + simpl. munfold. unfold at_index. rewrite Hk, Hj.
      unfold run_classifier. rewrite Hcr. simpl. rewrite Hscore, Hrun.
      reflexivity.
    + constructor; [|exact Hall].
      repeat split; simpl. exists cr. auto.
Qed.

(** C8. On a list of strings the batch classifier skips the blank
    entries and answers with one result per remaining text, in order; each
    result carries the position its text had in the request and is
    computed from that text. (The model is taken to answer every
    non-blank text with a result of the pipeline's shape.) *)
Theorem classify_batch_keeps_indices (w : world) (l : list str) :
  (forall s, In s l -> is_empty (strip s) = false -> classifiable c s) ->
  survivors_from 0 l <> [] ->
  (forall j s, In (j, s) (survivors_from 0 l) <->
               l !! j = Some s /\ is_empty (strip s) = false) /\
  exists results,
    fst (classify_batch_content c (texts l) w)
    = Ok (ClassifyBatchBody results (length results)
            (length (survivors_from 0 l)), 200)
    /\ List.map cr_index results = List.map fst (survivors_from 0 l)
    /\ Forall2 (computed_from c) results (survivors_from 0 l).
Proof.
  intros Hc Hne.
  assert (Spec : forall j s, In (j, s) (survivors_from 0 l) <->
                             l !! j = Some s /\ is_empty (strip s) = false).
  { intros j s. rewrite survivors_from_spec, Nat.sub_0_r.
    split; [tauto|]. intros [H1 H2]. repeat split; auto; lia. }
  split; [exact Spec|].
  destruct (classify_all_run (List.map PStr l)
              (List.map fst (survivors_from 0 l))
              (survivors_from 0 l) 0 w) as (results & w' & Hrun & Hall).
  { reflexivity. }
  { intros j s Hin. apply Spec in Hin as [Hj Hs]. split.
    - rewrite list_lookup_fmap, Hj. reflexivity.
    - apply Hc; [|exact Hs]. apply list_elem_of_In.
      now apply list_elem_of_lookup_2 in Hj. }
  exists results. split; [|split; [|exact Hall]].
  - unfold classify_batch_content, classify_batch_content_body, texts.
    munfold. simpl.
    destruct l as [|s0 l0]; [now destruct Hne|].
    rewrite filter_and_clean_strs.
    destruct (survivors_from 0 (s0 :: l0)) as [|p ps] eqn:E; [now destruct Hne|].
    remember (List.map (fun p0 => clean_text_for_classification (strip (snd p0)))
                (p :: ps)) as cl eqn:Ecl in *.
    change (List.map PStr (s0 :: l0)) with (PStr s0 :: List.map PStr l0) at 1.
    destruct cl as [|x xs]; [discriminate|].
    change (negb true) with false. cbv beta iota.
    rewrite Hrun. rewrite Ecl, length_map. reflexivity.
  - now apply computed_from_indices.
Qed.

End ClassifyBatchFacts.

Lemma classify_batch_keeps_indices_witness :
  exists results,
    fst (classify_batch_content healthy
           (texts [[]; lit "valid one"; lit "valid two"]) (start ∅))
    = Ok (ClassifyBatchBody results (length results) 2, 200)
    /\ List.map cr_index results = [1; 2].
Proof.
  destruct (classify_batch_keeps_indices healthy (start ∅)
              [[]; lit "valid one"; lit "valid two"])
    as [_ (results & H1 & H2 & _)].
  - intros s _ _. exists (sentiment f0_8 f0_2). split; reflexivity.
  - discriminate.
  - exists results. split; [exact H1|exact H2].
Defined.

Section BatchStoreFacts.
Variable c : collab.
Hypothesis storage_answers : forall u, query_fault c u = None.

Lemma item_id it d : py_get (item it) (lit "id") d = Ok (PStr (fst it)).
Proof. reflexivity. Qed.

Lemma item_text it d : py_get (item it) (lit "text") d = Ok (PStr (snd it)).
Proof. reflexivity. Qed.

(** One round of the loop on an item, handler included: the entry is the
    item's report, the counter goes up when the item succeeded, and the
    session sees the item applied. [t0] is any table with the same rows as
    the session. *)
Lemma round_run (t0 : table) (it : str * str) (w : world) :
  (forall u, is_Some (session w !! u) <-> is_Some (t0 !! u)) ->
  exists cs,
    try_except (process_article c (item it) (PStr (fst it)))
      (fun e =>
         shown ← lift (py_get (item it) (lit "id") (PStr (lit "unknown")));
         mret (ItemError shown (exn_msg e), false)) w
    = (Ok (report c t0 it, succeeded c t0 it),
       World (db w) (apply_item c (session w) it) cs).
Proof.
  intros Hdom. unfold process_article, report, succeeded, apply_item,
    computed, valid_item.
  rewrite !item_id, !item_text. munfold. simpl py_strip. cbv beta iota.
  replace (negb (truthy (PStr it.1))) with (is_empty it.1)
    by now destruct (fst it).
  destruct (is_empty it.1 || is_empty (strip it.2)) eqn:Hv.
  { exists (calls w). now destruct w. }
  unfold uuid_of. cbv beta iota.
  destruct (UUID c it.1) as [u|]; simpl.
  2: { exists (calls w). now destruct w. }
  unfold model_encode, session_first, session_assign.
  rewrite storage_answers. simpl.
  destruct (encode c [strip it.2]) as [[|e rows]|x]; simpl;
    try (eexists; reflexivity).
  specialize (Hdom u).
  destruct (session w !! u) as [a|] eqn:Hs; destruct (t0 !! u) as [a0|] eqn:Ht;
    simpl.
  - eexists. reflexivity.
  - exfalso. destruct (proj1 Hdom) as [? [=]]. eauto.
  - exfalso. destruct (proj2 Hdom) as [? [=]]. eauto.
  - eexists. reflexivity.
Qed.

Lemma apply_item_rows t it u :
  is_Some (apply_item c t it !! u) <-> is_Some (t !! u).
Proof.
  unfold apply_item. destruct (computed c it) as [[u' e]|]; [|reflexivity].
  destruct (t !! u') as [a|] eqn:E; [|reflexivity].
  destruct (decide (u' = u)) as [->|Hne].
  - rewrite lookup_insert_eq, E. split; eauto.
  - now rewrite lookup_insert_ne.
Qed.

Lemma process_articles_run (t0 : table) : forall l w bound acc n,
  (forall u, is_Some (session w !! u) <-> is_Some (t0 !! u)) ->
  exists cs,
    process_articles c (List.map item l) bound acc n w
    = (Ok (acc ++ List.map (report c t0) l,
           n + length (List.filter (succeeded c t0) l)),
       World (db w) (foldl (apply_item c) (session w) l) cs).
Proof.
  induction l as [|it l IH]; intros w bound acc n Hdom.
  - exists (calls w). simpl. rewrite app_nil_r, Nat.add_0_r. now destruct w.
  - destruct (round_run t0 it w Hdom) as [cs Hround].
    destruct (IH (World (db w) (apply_item c (session w) it) cs)
                (Some (PStr (fst it))) (acc ++ [report c t0 it])
                (if succeeded c t0 it then S n else n)) as [cs' Hrest].
    { intros u. simpl. rewrite apply_item_rows. apply Hdom. }
    exists cs'. cbn [List.map process_articles]. rewrite item_id.
    unfold mbind at 1, M_bind at 1. rewrite Hround. rewrite Hrest.
    simpl. rewrite <- app_assoc. simpl.
    destruct (succeeded c t0 it); simpl; repeat f_equal; lia.
Qed.

(** Row by row, what applying the items of [l] in order leaves in a
    table *)
Lemma foldl_apply_item l : forall (t : table) u,
  foldl (apply_item c) t l !! u =
  match t !! u, last_embedding c u l with
  | Some a, Some e => Some (written c a e)
  | r, _ => r
  end.
Proof.
  induction l as [|it l IH]; intros t u; simpl.
  - now destruct (t !! u).
  - rewrite IH. unfold apply_item.
    destruct (computed c it) as [[u' e]|]; [|now destruct (last_embedding c u l)].
    destruct (N.eqb_spec u u') as [<-|Hne].
    + destruct (t !! u) as [a|] eqn:E.
      * rewrite lookup_insert_eq. now destruct (last_embedding c u l).
      * rewrite E. now destruct (last_embedding c u l).
    + destruct (t !! u') as [a'|]; [rewrite lookup_insert_ne by congruence|];
        now destruct (last_embedding c u l).
Qed.

Hypothesis commit_works : commit_fault c = None.

(** The whole handler on a non-empty list of items, with storage working:
    one transaction, committed at the end. *)
Lemma batch_store_run (w : world) (l : list (str * str)) :
  l <> [] ->
  exists cs,
    generate_batch_embeddings_and_store c (articles l) w
    = (Ok (BatchStoreBody (length l)
             (length (List.filter (succeeded c (db w)) l))
             (List.map (report c (db w)) l), 200),
       World (foldl (apply_item c) (db w) l)
         (foldl (apply_item c) (db w) l) cs).
Proof.
  intros Hl.
  destruct (process_articles_run (db w) l (World (db w) (db w) (calls w))
              None [] 0) as [cs Hrun]; [reflexivity|].
  exists cs.
  unfold generate_batch_embeddings_and_store,
    generate_batch_embeddings_and_store_body, articles.
  munfold. simpl.
  destruct l as [|it l]; [now destruct Hl|].
  change (negb match List.map item (it :: l) with
               | [] => false | _ :: _ => true end) with false.
  cbv beta iota.
  unfold get_db_session, session_open, session_commit, session_close.
  munfold. rewrite commit_works. cbv beta iota.
  cbn [db session calls].
  rewrite Hrun. cbn [db session calls]. rewrite length_map. reflexivity.
Qed.

Lemma written_columns a e :
  embedding (written c a e) = Some e /\
  embedding_status (written c a e) = Some (lit "success") /\
  other_columns (written c a e) = other_columns a.
Proof. repeat split. Qed.

(** C5. For every non-empty batch of {id, text} items, with storage
    working, the handler answers 200 with one entry per item, in order,
    and the number of items that updated a row. An invalid item (empty id,
    blank text, or an id that is not a UUID) gets an error entry carrying
    its id, and the batch goes on. The updates of the other items are
    committed together: every row named by such an item ends with the
    embedding of the last one naming it in [embedding] and success in
    [embedding_status], its columns other than these two and [updated_at]
    as before, and every other row is as before. *)
Theorem batch_store_partial_success (w : world) (l : list (str * str)) :
  l <> [] ->
  exists cs,
    let t' := foldl (apply_item c) (db w) l in
    generate_batch_embeddings_and_store c (articles l) w
    = (Ok (BatchStoreBody (length l)
             (length (List.filter (succeeded c (db w)) l))
             (List.map (report c (db w)) l), 200),
       World t' t' cs)
    /\ (forall it, valid_item c it = None ->
        exists msg, report c (db w) it = ItemError (PStr (fst it)) msg)
    /\ (forall it, succeeded c (db w) it = true ->
        exists dim, report c (db w) it = ItemSuccess (PStr (fst it)) dim)
    /\ (forall u,
        match db w !! u, last_embedding c u l with
        | Some a, Some e =>
            exists a',
              t' !! u = Some a' /\
              embedding a' = Some e /\
              embedding_status a' = Some (lit "success") /\
              other_columns a' = other_columns a
        | _, _ => t' !! u = db w !! u
        end).
Proof.
  intros Hl. destruct (batch_store_run w l Hl) as [cs Hrun].
  exists cs. cbv zeta. split; [exact Hrun|]. split; [|split].
  - intros it. unfold valid_item, report.
    destruct (is_empty it.1 || is_empty (strip it.2)); [eauto|].
    destruct (UUID c it.1); [discriminate|eauto].
  - intros it. unfold succeeded, computed, valid_item, report.
    destruct (is_empty it.1 || is_empty (strip it.2)); [discriminate|].
    destruct (UUID c it.1) as [u|]; [|discriminate]. simpl.
    destruct (encode c [strip it.2]) as [[|e rows]|x]; try discriminate.
    intros H. apply bool_decide_eq_true_1 in H as [a ->]. eauto.
  - intros u. rewrite foldl_apply_item.
    destruct (db w !! u) as [a|]; [|reflexivity].
    destruct (last_embedding c u l) as [e|]; [|reflexivity].
    exists (written c a e). split; [reflexivity|apply written_columns].
Qed.

(** An item whose embedding the model fails to compute is reported with
    the text of the exception. *)
Lemma batch_item_message_is_exception_text (w : world) (id text : str)
    (u : uuid) (x : exn) :
  is_empty id = false -> is_empty (strip text) = false ->
  UUID c id = Some u -> encode c [strip text] = Raise x ->
  fst (generate_batch_embeddings_and_store c (articles [(id, text)]) w)
  = Ok (BatchStoreBody 1 0 [ItemError (PStr id) (exn_msg x)], 200).
Proof.
  intros Hid Htext Hu Hx.
  destruct (batch_store_run w [(id, text)]) as [cs ->]; [discriminate|].
  simpl. unfold succeeded, computed, valid_item, report. simpl.
  rewrite Hid, Htext, Hu. simpl. now rewrite Hx.
Qed.

End BatchStoreFacts.

Lemma batch_store_partial_success_witness :
  exists cs t' a',
    generate_batch_embeddings_and_store healthy
      (articles [(id1, lit "hello"); (lit "nope", lit "x")]) (start rows1)
    = (Ok (BatchStoreBody 2 1
             [ItemSuccess (PStr id1) 4;
              ItemError (PStr (lit "nope")) (lit "Invalid article ID format")],
           200),
       World t' t' cs)
    /\ t' !! 24249434048109030647017182301789831168%N = Some a'
    /\ embedding a' = Some [f0_1; f0_2; f0_3; f0_5]
    /\ embedding_status a' = Some (lit "success")
    /\ other_columns a' = other_columns (row "https://example.org/a").
Proof.
  destruct (batch_store_partial_success healthy (fun _ => eq_refl) eq_refl
              (start rows1) [(id1, lit "hello"); (lit "nope", lit "x")])
    as (cs & Hrun & _ & _ & Hrows); [discriminate|].
  specialize (Hrows 24249434048109030647017182301789831168%N).
  destruct Hrows as (a' & Ha & He & Hs & Ho).
  exists cs, (foldl (apply_item healthy) (db (start rows1))
                [(id1, lit "hello"); (lit "nope", lit "x")]), a'.
  split; [exact Hrun|]. split; [exact Ha|]. split; [exact He|].
  split; [exact Hs|exact Ho].
Defined.

(** C9 fails on the batch store: the entry of an item on which the model
    raised repeats the exception's text, so two runs that differ only in
    that text answer differently. *)
Theorem batch_item_error_shows_detail :
  fst (generate_batch_embeddings_and_store (model_down "secret A")
         (articles [(id1, lit "hello")]) (start rows1))
  = Ok (BatchStoreBody 1 0 [ItemError (PStr id1) (lit "secret A")], 200) /\
  fst (generate_batch_embeddings_and_store (model_down "secret B")
         (articles [(id1, lit "hello")]) (start rows1))
  = Ok (BatchStoreBody 1 0 [ItemError (PStr id1) (lit "secret B")], 200) /\
  fst (generate_batch_embeddings_and_store (model_down "secret A")
         (articles [(id1, lit "hello")]) (start rows1))
  <> fst (generate_batch_embeddings_and_store (model_down "secret B")
            (articles [(id1, lit "hello")]) (start rows1)).
Proof.
  assert (A : forall detail,
    fst (generate_batch_embeddings_and_store (model_down detail)
           (articles [(id1, lit "hello")]) (start rows1))
    = Ok (BatchStoreBody 1 0 [ItemError (PStr id1) (lit detail)], 200)).
  { intros detail.
    apply (batch_item_message_is_exception_text (model_down detail)
             (fun _ => eq_refl) eq_refl (start rows1) id1 (lit "hello")
             24249434048109030647017182301789831168%N
             (Exn OtherError (lit detail))); reflexivity. }
  rewrite !A. repeat split. intros [=].
Qed.

(** The request-level handlers answer an exception with a fixed notice:
    whatever [/embed] answers with status 500 is "Internal server error". *)
Lemma generate_embedding_notice (c : collab) (data : pyval) (w : world) :
  exists r, fst (generate_embedding c data w) = Ok r /\
            (snd r = 500 -> r = error "Internal server error" 500).
Proof.
  unfold generate_embedding, try_except.
  destruct (generate_embedding_body c data w) as [[r|x] w'] eqn:E.
  2: { eexists. split; [reflexivity|auto]. }
  exists r. split; [reflexivity|]. intros H500.
  revert E. unfold generate_embedding_body. munfold.
  destruct (missing_field data (lit "text")) as [[|]|]; try discriminate;
    [intros [= <- _]; discriminate|].
  destruct (getitem data (lit "text")) as [text|]; [|discriminate].
  destruct (nonblank text) as [[|]|]; simpl; try discriminate;
    [|intros [= <- _]; discriminate].
  destruct (py_strip text); [|discriminate].
  unfold model_encode. destruct (encode c [a]); [|discriminate].
  destruct (at_index a0 0); [|discriminate].
  intros [= <- _]. discriminate.
Qed.


(** * Further properties *)

(** ** The normaliser *)

Section NormalizerMore.

#[local] Arguments isspace : simpl never.

Lemma strip_strip s : strip (strip s) = strip s.
Proof. apply strip_fixed; [apply hd_ok_strip|apply rstrip_strip]. Qed.

Lemma lstrip_all_space s : Forall (fun ch => isspace ch = true) s -> lstrip s = [].
Proof. induction 1 as [|ch s Hch _ IH]; simpl; [reflexivity|now rewrite Hch]. Qed.

Lemma Forall_lstrip (P : N -> Prop) s : Forall P s -> Forall P (lstrip s).
Proof.
  induction 1 as [|ch s Hch Hs IH]; simpl; [constructor|].
  destruct (isspace ch); [exact IH|now constructor].
Qed.

Lemma Forall_rstrip (P : N -> Prop) s : Forall P s -> Forall P (rstrip s).
Proof.
  induction 1 as [|ch s Hch Hs IH]; simpl; [constructor|].
  destruct (rstrip s) as [|d r]; [destruct (isspace ch)|].
  - constructor.
  - now constructor.
  - now constructor.
Qed.

Lemma Forall_strip (P : N -> Prop) s : Forall P s -> Forall P (strip s).
Proof. intros H. now apply Forall_rstrip, Forall_lstrip. Qed.

Lemma tidy_plain s : tidy s = true -> Forall plain s.
Proof.
  induction s as [|ch s IH]; simpl; [constructor|].
  intros [H1 H2]%andb_true_iff. constructor; [|now apply IH].
  intros Hch. rewrite Hch in H1. apply andb_true_iff in H1 as [H1 _].
  now apply N.eqb_eq.
Qed.

(** Deleting matches keeps what holds of every character. *)
Lemma Forall_sub_delete (P : N -> Prop) r s : forall k,
  Forall P s -> Forall P (Re.sub_from r [] k s).
Proof.
  induction s as [|ch s IH]; intros k H; [constructor|].
  apply Forall_cons in H as [Hch Hs]. simpl.
  destruct k as [|k]; [|now apply IH].
  destruct (Re.exec r (ch :: s)) as [[|n]|]; simpl;
    try (constructor; [exact Hch|]); now apply IH.
Qed.

(** [re.sub] with a replacement of at most one character does not
    lengthen the text. *)
Lemma sub_from_length r repl s : forall k,
  length repl <= 1 -> length (Re.sub_from r repl k s) <= length s.
Proof.
  induction s as [|ch s IH]; intros k H; simpl; [lia|].
  destruct k as [|k]; [|specialize (IH k H); lia].
  destruct (Re.exec r (ch :: s)) as [[|n]|]; simpl;
    rewrite ?length_app; [specialize (IH 0 H)|specialize (IH n H)
                         |specialize (IH 0 H)]; lia.
Qed.

(** X1. What the normaliser returns neither starts nor ends with white
    space, and the only white-space character in it is the plain space:
    tabs, newlines and the like never reach the classifier. *)
Theorem clean_text_is_trimmed_and_plain (text : str) :
  strip (clean_text_for_classification text)
  = clean_text_for_classification text /\
  Forall plain (clean_text_for_classification text).
Proof.
  split; [apply strip_strip|].
  unfold clean_text_for_classification. fold (collapsed text).
  apply Forall_strip.
  assert (H : Forall plain
                (Re.sub Re.email [] (Re.sub Re.url [] (collapsed text)))).
  { apply Forall_sub_delete, Forall_sub_delete, tidy_plain, tidy_sub. }
  destruct (500 <? length _); [|exact H].
  apply Forall_app. split; [now apply Forall_take|].
  apply Forall_app. split; [repeat constructor|].
  unfold last_chars. now apply Forall_drop.
Qed.

(** X2. White space around the text does not matter to the normaliser,
    and a text of white space only is normalised to the empty string. *)
Theorem clean_text_ignores_outer_whitespace (text : str) :
  clean_text_for_classification (strip text)
  = clean_text_for_classification text /\
  (Forall (fun ch => isspace ch = true) text ->
   clean_text_for_classification text = []).
Proof.
  split.
  - unfold clean_text_for_classification. now rewrite strip_strip.
  - intros H. unfold clean_text_for_classification, strip.
    now rewrite (lstrip_all_space text H).
Qed.

Lemma clean_text_ignores_outer_whitespace_witness :
  clean_text_for_classification [9%N; 10%N; 13%N; 32%N; 160%N; 8232%N] = [].
Proof.
  apply (proj2 (clean_text_ignores_outer_whitespace
                  [9%N; 10%N; 13%N; 32%N; 160%N; 8232%N])).
  repeat constructor.
Defined.

(** X3. The normaliser never returns more characters than it was given. *)
Theorem clean_text_never_longer (text : str) :
  length (clean_text_for_classification text) <= length text.
Proof.
  unfold clean_text_for_classification.
  etransitivity; [apply strip_length|].
  set (t := Re.sub Re.email [] _).
  assert (Ht : length t <= length text).
  { unfold t, Re.sub.
    etransitivity; [apply sub_from_length; simpl; lia|].
    etransitivity; [apply sub_from_length; simpl; lia|].
    etransitivity; [apply sub_from_length; simpl; lia|].
    apply strip_length. }
  destruct (500 <? length t) eqn:H; [|exact Ht].
  apply Nat.ltb_lt in H. rewrite (truncated_length t H). lia.
Qed.

End NormalizerMore.

(** ** The scorer *)

Section ScorerMore.

#[local] Arguments isspace : simpl never.

Lemma rstrip_step ch s :
  rstrip (ch :: s) =
  match rstrip s with
  | [] => if isspace ch then [] else [ch]
  | _ => ch :: rstrip s
  end.
Proof. simpl. now destruct (rstrip s). Qed.

Lemma split_from_rstrip s : forall cur,
  split_from cur (rstrip s) = split_from cur s.
Proof.
  induction s as [|ch s IH]; intros cur; [reflexivity|].
  rewrite rstrip_step.
  assert (A : forall cur, split_from cur (ch :: rstrip s)
                          = split_from cur (ch :: s)).
  { intros cur'. simpl. destruct (isspace ch); now rewrite IH. }
  destruct (rstrip s) as [|d r] eqn:E; [|exact (A cur)].
  destruct (isspace ch) eqn:Hch; [|exact (A cur)].
  simpl. rewrite Hch, <- (IH []). now destruct cur.
Qed.

Lemma split_strip s : split (strip s) = split s.
Proof.
  unfold split, strip. rewrite split_from_rstrip.
  induction s as [|ch s IH]; [reflexivity|].
  simpl. destruct (isspace ch) eqn:Hch; [exact IH|].
  simpl. now rewrite Hch.
Qed.

Lemma count_lstrip ch s : isspace ch = false -> count ch (lstrip s) = count ch s.
Proof.
  intros Hch. induction s as [|d s IH]; [reflexivity|]. simpl.
  destruct (isspace d) eqn:Hd; [|reflexivity].
  destruct (N.eqb_spec d ch) as [->|_]; [congruence|exact IH].
Qed.

Lemma count_rstrip ch s : isspace ch = false -> count ch (rstrip s) = count ch s.
Proof.
  intros Hch. induction s as [|d s IH]; [reflexivity|].
  rewrite rstrip_step.
  assert (A : count ch (d :: rstrip s) = count ch (d :: s))
    by (simpl; now rewrite IH).
  destruct (rstrip s) as [|e r] eqn:E; [|exact A].
  destruct (isspace d) eqn:Hd; [|exact A].
  simpl in *. destruct (N.eqb_spec d ch) as [->|_]; [congruence|exact IH].
Qed.

Lemma count_strip ch s : isspace ch = false -> count ch (strip s) = count ch s.
Proof.
  intros H. unfold strip. now rewrite count_rstrip, count_lstrip.
Qed.

Lemma structure_count_strip s : structure_count (strip s) = structure_count s.
Proof.
  unfold structure_count, structure_indicators. simpl.
  now rewrite !count_strip by reflexivity.
Qed.

(** A text has at most as many words as characters between its outer
    white space. *)
Lemma words_from_le s : forall cur,
  length (split_from cur s)
  <= length (rstrip s) + match cur with [] => 0 | _ => 1 end.
Proof.
  induction s as [|ch s IH]; intros cur.
  - destruct cur; simpl; lia.
  - assert (L : length (rstrip s) + (if isspace ch then 0 else 1)
                <= length (rstrip (ch :: s))).
    { rewrite rstrip_step.
      destruct (rstrip s); destruct (isspace ch); simpl; lia. }
    remember (rstrip (ch :: s)) as R eqn:ER. clear ER.
    cbn [split_from].
    destruct (isspace ch).
    + pose proof (IH []) as H. destruct cur; simpl in *; lia.
    + pose proof (IH (ch :: cur)) as H. destruct cur; simpl in *; lia.
Qed.

Lemma words_le_length s : length (split s) <= length (strip s).
Proof.
  rewrite <- split_strip. unfold split.
  pose proof (words_from_le (strip s) []) as H.
  rewrite rstrip_strip in H. lia.
Qed.

Lemma sentiment_factor_empty sr base :
  empty_result sr = true -> sentiment_factor sr base = Ok base.
Proof.
  unfold empty_result, sentiment_factor. intros H.
  destruct (truthy sr) eqn:Ht; [|reflexivity]. simpl in H.
  destruct sr as [| | |[|[| | |[|]|] more]|]; try discriminate. reflexivity.
Qed.

Lemma structure_factor_count text base :
  structure_factor text base =
  if 10 <? structure_count text then add base f0_1
  else if 5 <? structure_count text then add base f0_05
  else base.
Proof. reflexivity. Qed.

(** X4. White space around the text does not change its score: the
    length is taken of the stripped text, and words and punctuation are
    counted the same with or without it. *)
Theorem score_ignores_outer_whitespace (text : str) (sr : pyval) :
  calculate_article_score (strip text) sr = calculate_article_score text sr.
Proof.
  rewrite !score_unfold.
  assert (L : forall b, length_factor (strip text) b = length_factor text b).
  { intros b. unfold length_factor. now rewrite strip_strip. }
  assert (W : forall b, word_factor (strip text) b = word_factor text b).
  { intros b. unfold word_factor. now rewrite split_strip. }
  assert (P : forall b, structure_factor (strip text) b = structure_factor text b).
  { intros b. now rewrite !structure_factor_count, structure_count_strip. }
  rewrite L, W. destruct (sentiment_factor sr _); [|reflexivity].
  now rewrite P.
Qed.

(** X5. Without classifier output, a text of fewer than 50 characters
    (outer white space aside) is never judged an article: whatever its
    words and punctuation, its score stays at or below 0.5. *)
Theorem short_text_without_sentiment_is_not_article (text : str) (sr : pyval) :
  length (strip text) < 50 ->
  empty_result sr = true ->
  exists score,
    calculate_article_score text sr = Ok score /\ gtb score f0_5 = false.
Proof.
  intros Hn He. rewrite score_unfold, (sentiment_factor_empty _ _ He).
  eexists; split; [reflexivity|].
  pose proof (words_le_length text) as Hw.
  rewrite structure_factor_count.
  unfold length_factor, word_factor.
  replace (1000 <? length (strip text)) with false
    by (symmetry; apply Nat.ltb_ge; lia).
  replace (500 <? length (strip text)) with false
    by (symmetry; apply Nat.ltb_ge; lia).
  replace (200 <? length (strip text)) with false
    by (symmetry; apply Nat.ltb_ge; lia).
  replace (length (strip text) <? 50) with true
    by (symmetry; apply Nat.ltb_lt; lia).
  replace (200 <? length (split text)) with false
    by (symmetry; apply Nat.ltb_ge; lia).
  replace (100 <? length (split text)) with false
    by (symmetry; apply Nat.ltb_ge; lia).
  destruct (length (split text) <? 20);
    destruct (10 <? structure_count text);
    try destruct (5 <? structure_count text); vm_compute; reflexivity.
Qed.

Lemma short_text_without_sentiment_is_not_article_witness :
  exists score,
    calculate_article_score (lit "Read this: a, b, c; d. e! f? g, h, i, j.")
      PNone = Ok score
    /\ gtb score f0_5 = false.
Proof.
  apply (short_text_without_sentiment_is_not_article
           (lit "Read this: a, b, c; d. e! f? g, h, i, j.") PNone).
  - vm_compute. repeat constructor.
  - reflexivity.
Defined.



End ScorerMore.

(** ** The classification and embedding handlers *)

Section ClassifyMore.
Variable c : collab.

Lemma clean_strip text :
  clean_text_for_classification (strip text)
  = clean_text_for_classification text.
Proof. unfold clean_text_for_classification. now rewrite strip_strip. Qed.

Lemma clean_length text : length (clean_text_for_classification text) <= 501.
Proof.
  unfold clean_text_for_classification.
  set (t := Re.sub Re.email [] _).
  etransitivity; [apply strip_length|].
  destruct (500 <? length t) eqn:H.
  - apply Nat.ltb_lt in H. rewrite (truncated_length t H). lia.
  - apply Nat.ltb_ge in H. lia.
Qed.

Lemma preview_length s : length (preview s) <= 103.
Proof.
  unfold preview. destruct (100 <? length s) eqn:H.
  - rewrite length_app, length_firstn. change (length (lit "...")) with 3. lia.
  - apply Nat.ltb_ge in H. lia.
Qed.

Lemma returned_score_in_unit text sr score :
  calculate_article_score text sr = Ok score -> in_unit score = true.
Proof.
  rewrite score_unfold. destruct (sentiment_factor _ _); [|discriminate].
  intros [= <-]. apply clamp_in_unit.
Qed.

(** The handler on a request whose text is a non-blank string that the
    classifier answers and the scorer accepts *)
Lemma classify_content_run (w : world) (text : str) (result : pyval)
    (score : float) :
  is_empty (strip text) = false ->
  classifier c (clean_text_for_classification text) = Ok result ->
  calculate_article_score text result = Ok score ->
  classify_content c (text_request text) w
  = (Ok (ClassifyBody (preview text) (gtb score f0_5) score result
           (length text) (length (clean_text_for_classification text))
           (length (split (clean_text_for_classification text))), 200),
     World (db w) (session w)
       (Classify (clean_text_for_classification text) :: calls w)).
Proof.
  intros Hb Hc Hs. unfold classify_content, classify_content_body, text_request.
  munfold. simpl. rewrite nonblank_str, Hb. simpl.
  unfold run_classifier. now rewrite Hc, Hs.
Qed.

(** X7. [/classify] on a string: a blank text is answered with 400 and the
    classifier is not called. A non-blank text that the classifier answers
    in the pipeline's shape is answered with 200 after one call of the
    classifier, on the normalised text; the confidence lies in [0,1], the
    verdict is confidence > 0.5, the normalised text has at most 501
    characters and the text shown at most 103. *)
Theorem classify_content_outcome (w : world) (text : str) :
  (is_empty (strip text) = true ->
   classify_content c (text_request text) w
   = (Ok (ClassifyError (lit "Empty text provided"), 400), w)) /\
  (is_empty (strip text) = false -> classifiable c text ->
   exists result score shown cleaned,
     classify_content c (text_request text) w
     = (Ok (ClassifyBody shown (gtb score f0_5) score result (length text)
              (length cleaned) (length (split cleaned)), 200),
        World (db w) (session w) (Classify cleaned :: calls w))
     /\ cleaned = clean_text_for_classification text
     /\ calculate_article_score text result = Ok score
     /\ in_unit score = true
     /\ length cleaned <= 501
     /\ length shown <= 103).
Proof.
  split.
  - intros Hb. unfold classify_content, classify_content_body, text_request.
    munfold. simpl. rewrite nonblank_str, Hb. destruct w; reflexivity.
  - intros Hb (result & Hc & Hwf). rewrite clean_strip in Hc.
    destruct (score_total text result Hwf) as [score Hs].
    exists result, score, (preview text), (clean_text_for_classification text).
    split; [now apply classify_content_run|].
    repeat split; auto using clean_length, preview_length.
    now apply returned_score_in_unit with text result.
Qed.

(** The batch handler on a list of strings whose non-blank entries the
    classifier answers in the pipeline's shape *)
Lemma classify_batch_run (w : world) (l : list str) :
  (forall s, In s l -> is_empty (strip s) = false -> classifiable c s) ->
  survivors_from 0 l <> [] ->
  exists results,
    fst (classify_batch_content c (texts l) w)
    = Ok (ClassifyBatchBody results (length results)
            (length (survivors_from 0 l)), 200)
    /\ Forall2 (computed_from c) results (survivors_from 0 l).
Proof.
  intros Hc Hne.
  destruct (classify_all_run c (List.map PStr l)
              (List.map fst (survivors_from 0 l))
              (survivors_from 0 l) 0 w) as (results & w' & Hrun & Hall).
  { reflexivity. }
  { intros j s Hin. apply survivors_from_spec in Hin as (_ & Hj & Hs).
    rewrite Nat.sub_0_r in Hj. split.
    - rewrite list_lookup_fmap, Hj. reflexivity.
    - apply Hc; [|exact Hs]. apply list_elem_of_In.
      now apply list_elem_of_lookup_2 in Hj. }
  exists results. split; [|exact Hall].
  unfold classify_batch_content, classify_batch_content_body, texts.
  munfold. simpl.
  destruct l as [|s0 l0]; [now destruct Hne|].
  rewrite filter_and_clean_strs.
  destruct (survivors_from 0 (s0 :: l0)) as [|p ps] eqn:E; [now destruct Hne|].
  remember (List.map (fun p0 => clean_text_for_classification (strip (snd p0)))
              (p :: ps)) as cl eqn:Ecl in *.
  change (List.map PStr (s0 :: l0)) with (PStr s0 :: List.map PStr l0) at 1.
  destruct cl as [|x xs]; [discriminate|].
  change (negb true) with false. cbv beta iota.
  rewrite Hrun. rewrite Ecl, length_map. reflexivity.
Qed.

(** X8. The batch classifier and [/classify] agree: on a list of strings,
    each result of the batch carries the text shown, the verdict and the
    confidence that [/classify] answers for the text at the result's
    index. *)
Theorem classify_batch_agrees_with_single (w w0 : world) (l : list str) :
  (forall s, In s l -> is_empty (strip s) = false -> classifiable c s) ->
  survivors_from 0 l <> [] ->
  exists results,
    fst (classify_batch_content c (texts l) w)
    = Ok (ClassifyBatchBody results (length results)
            (length (survivors_from 0 l)), 200)
    /\ Forall (fun r =>
         exists text sentiment text_length cleaned_length words,
           l !! cr_index r = Some text /\
           fst (classify_content c (text_request text) w0)
           = Ok (ClassifyBody (cr_text r) (cr_is_article r) (cr_confidence r)
                   sentiment text_length cleaned_length words, 200)) results.
Proof.
  intros Hc Hne. destruct (classify_batch_run w l Hc Hne) as (results & Hrun & Hall).
  exists results. split; [exact Hrun|]. clear Hrun Hne.
  assert (Hin : forall p, In p (survivors_from 0 l) ->
                          l !! fst p = Some (snd p)
                          /\ is_empty (strip (snd p)) = false).
  { intros [j s] H. apply survivors_from_spec in H as (_ & Hj & Hs).
    now rewrite Nat.sub_0_r in Hj. }
  revert Hin. induction Hall as [|r p rs ps Hr _ IH]; intros Hin; constructor.
  - destruct (Hin p (or_introl eq_refl)) as [Hj Hb].
    destruct Hr as (Hi & Ht & cr & Hcr & Hs & Ha).
    rewrite clean_strip in Hcr.
    exists (snd p). do 4 eexists. split; [now rewrite Hi|].
    rewrite (classify_content_run w0 (snd p) cr (cr_confidence r) Hb Hcr Hs).
    simpl. now rewrite Ht, Ha.
  - apply IH. intros q Hq. apply Hin. now right.
Qed.

(** [text.strip() for text in texts if text and text.strip()] fails on an
    entry that is truthy and not a string. *)
Lemma strip_nonblank_raises l :
  Exists (fun v => truthy v = true /\ is_str v = false) l ->
  exists e, strip_nonblank l = Raise e.
Proof.
  induction l as [|v l IH]; intros H; [now apply Exists_nil in H|].
  apply Exists_cons in H as [[Ht Hs]|H].
  - simpl. unfold nonblank. rewrite Ht.
    destruct v; try discriminate; simpl; eauto.
  - destruct (IH H) as [e He]. simpl. rewrite He. munfold.
    destruct (nonblank v) as [[|]|]; eauto.
    destruct (py_strip v); eauto.
Qed.

Lemma filter_and_clean_raises l : forall i,
  Exists (fun v => truthy v = true /\ is_str v = false) l ->
  exists e, filter_and_clean i l = Raise e.
Proof.
  induction l as [|v l IH]; intros i H; [now apply Exists_nil in H|].
  apply Exists_cons in H as [[Ht Hs]|H].
  - simpl. unfold nonblank. rewrite Ht.
    destruct v; try discriminate; simpl; eauto.
  - destruct (IH (S i) H) as [e He]. simpl. rewrite He. munfold.
    destruct (nonblank v) as [[|]|]; eauto.
    destruct (py_strip v); eauto.
Qed.

(** X9. In both batch handlers one entry that is truthy but not a string
    (a number, a list, an object) fails the whole request: the answer is
    500 "Internal server error", not an item-level error, and no model is
    called. *)
Theorem batch_rejects_non_string_entry (w : world) (l : list pyval) :
  Exists (fun v => truthy v = true /\ is_str v = false) l ->
  generate_batch_embeddings c (PDict [(lit "texts", PList l)]) w
  = (Ok (error "Internal server error" 500), w) /\
  classify_batch_content c (PDict [(lit "texts", PList l)]) w
  = (Ok (error "Internal server error" 500), w).
Proof.
  intros H.
  destruct (strip_nonblank_raises l H) as [e1 H1].
  destruct (filter_and_clean_raises l 0 H) as [e2 H2].
  assert (Hl : truthy (PList l) = true).
  { destruct l; [now apply Exists_nil in H|reflexivity]. }
  unfold generate_batch_embeddings, generate_batch_embeddings_body,
    classify_batch_content, classify_batch_content_body.
  munfold. simpl in *. rewrite Hl. simpl. rewrite H1, H2.
  destruct w; split; reflexivity.
Qed.

(** X10. [/embed] on a string: a blank text is answered with 400 and the
    model is not called. On a non-blank text the model is called once, on
    the stripped text alone; the answer carries the text as it was sent and
    the length of the vector, or is 500 "Internal server error" if the
    model raised or gave no row. *)
Theorem generate_embedding_outcome (w : world) (text : str) :
  (is_empty (strip text) = true ->
   generate_embedding c (text_request text) w
   = (Ok (error "Empty text provided" 400), w)) /\
  (is_empty (strip text) = false ->
   generate_embedding c (text_request text) w
   = (Ok match encode c [strip text] with
         | Ok (e :: _) => (EmbedBody (PStr text) e (length e), 200)
         | _ => error "Internal server error" 500
         end,
      World (db w) (session w) (Encode [strip text] :: calls w))).
Proof.
  unfold generate_embedding, generate_embedding_body, text_request.
  split; intros Hb; munfold; simpl; rewrite nonblank_str, Hb; simpl.
  - now destruct w.
  - unfold model_encode. now destruct (encode c [strip text]) as [[|e rows]|x].
Qed.

End ClassifyMore.

Lemma classify_content_outcome_witness :
  exists result score shown cleaned,
    classify_content healthy (text_request (lit " Short.  ")) (start ∅)
    = (Ok (ClassifyBody shown (gtb score f0_5) score result 9
             (length cleaned) (length (split cleaned)), 200),
       World ∅ ∅ [Classify cleaned])
    /\ cleaned = lit "Short."
    /\ calculate_article_score (lit " Short.  ") result = Ok score
    /\ in_unit score = true
    /\ length cleaned <= 501
    /\ length shown <= 103.
Proof.
  apply (proj2 (classify_content_outcome healthy (start ∅) (lit " Short.  "))).
  - reflexivity.
  - exists (sentiment f0_8 f0_2). split; reflexivity.
Defined.

Lemma classify_batch_agrees_with_single_witness :
  exists results,
    fst (classify_batch_content healthy
           (texts [[]; lit "valid one"; lit "valid two"]) (start ∅))
    = Ok (ClassifyBatchBody results (length results) 2, 200)
    /\ Forall (fun r =>
         exists text sentiment text_length cleaned_length words,
           [[]; lit "valid one"; lit "valid two"] !! cr_index r = Some text /\
           fst (classify_content healthy (text_request text) (start ∅))
           = Ok (ClassifyBody (cr_text r) (cr_is_article r) (cr_confidence r)
                   sentiment text_length cleaned_length words, 200)) results.
Proof.
  apply (classify_batch_agrees_with_single healthy (start ∅) (start ∅)
           [[]; lit "valid one"; lit "valid two"]).
  - intros s _ _. exists (sentiment f0_8 f0_2). split; reflexivity.
  - discriminate.
Defined.

Lemma batch_rejects_non_string_entry_witness :
  generate_batch_embeddings healthy
    (PDict [(lit "texts", PList [PStr (lit "fine"); PFloat f0_5])]) (start ∅)
  = (Ok (error "Internal server error" 500), start ∅).
Proof.
  apply (batch_rejects_non_string_entry healthy (start ∅)
           [PStr (lit "fine"); PFloat f0_5]).
  apply Exists_cons_tl, Exists_cons_hd. split; reflexivity.
Defined.

Lemma generate_embedding_outcome_witness :
  generate_embedding healthy (text_request (lit " hi ")) (start ∅)
  = (Ok (EmbedBody (PStr (lit " hi ")) (vector_of (lit "hi")) 4, 200),
     World ∅ ∅ [Encode [lit "hi"]]).
Proof.
  apply (proj2 (generate_embedding_outcome healthy (start ∅) (lit " hi "))).
  reflexivity.
Defined.

(** ** Storing one embedding *)

Section StoreMore.
Variable c : collab.

Lemma other_columns_set a e st : other_columns (set_embedding a e st) = other_columns a.
Proof. reflexivity. Qed.

Lemma rows_kept_refl t : rows_kept t t.
Proof. intros u. reflexivity. Qed.

Lemma rows_kept_trans t1 t2 t3 : rows_kept t1 t2 -> rows_kept t2 t3 -> rows_kept t1 t3.
Proof. intros H1 H2 u. now rewrite H1. Qed.

Lemma rows_kept_assign (t : table) u a a' :
  t !! u = Some a -> other_columns a' = other_columns a ->
  rows_kept t (<[u := a']> t).
Proof.
  intros H Ho v. destruct (decide (u = v)) as [<-|Hne].
  - rewrite lookup_insert_eq, H. simpl. now rewrite Ho.
  - now rewrite lookup_insert_ne.
Qed.

(** What the [with] block of the single store can do to the table: nothing,
    or, when it runs to its end, assign the embedding to the row. *)
Lemma store_embedding_effect u e w :
  db (snd (store_embedding c u e w)) = db w \/
  exists a, db w !! u = Some a /\
            store_embedding c u e w
            = (Ok None,
               World (<[u := written c a e]> (db w))
                 (<[u := written c a e]> (db w)) (calls w))
            /\ query_fault c u = None /\ commit_fault c = None.
Proof.
  unfold store_embedding, get_db_session, session_open, session_first,
    session_assign, session_commit, session_rollback, session_close.
  munfold. simpl.
  destruct (query_fault c u); simpl; [now left|].
  destruct (db w !! u) as [a|] eqn:E; simpl.
  - destruct (commit_fault c); simpl; [now left|].
    right. exists a. auto.
  - destruct (commit_fault c); now left.
Qed.

(** The handler, step by step, on a request that passed validation and
    whose embedding the model gave *)
Lemma store_after_validation (w : world) (id text : str) (u : uuid)
    (e : list float) (rows : list (list float)) :
  UUID c id = Some u ->
  is_empty (strip text) = false ->
  encode c [strip text] = Ok (e :: rows) ->
  generate_and_store_embedding c id (text_request text) w
  = match store_embedding c u e
            (World (db w) (session w) (Encode [strip text] :: calls w)) with
    | (Ok (Some r), w') => (Ok r, w')
    | (Ok None, w') =>
        (Ok (StoreBody id (length e) (lit "success")
               (lit "Embedding generated and stored successfully"), 200), w')
    | (Raise x, w') => on_error x w'
    end.
Proof.
  intros Hu Hb He.
  unfold generate_and_store_embedding, generate_and_store_embedding_body,
    text_request.
  rewrite Hu. munfold. simpl.
  destruct (strip text) as [|ch t] eqn:Es; [discriminate|]. simpl.
  unfold model_encode. rewrite He. simpl.
  now destruct (store_embedding c u e _) as [[[r|]|x] w'].
Qed.

(** X11. Storing an embedding for an existing article, with the model and
    storage working: the answer is 200 with the vector's length, the model
    was called once on the stripped text, and the table differs from the
    one before in this row alone. The row now holds the vector in
    [embedding] and success in [embedding_status]; its columns other than
    these two and [updated_at] are as before. *)
Theorem store_embedding_success (w : world) (id text : str) (u : uuid)
    (a : Article) (e : list float) (rows : list (list float)) :
  UUID c id = Some u ->
  is_empty (strip text) = false ->
  encode c [strip text] = Ok (e :: rows) ->
  query_fault c u = None ->
  commit_fault c = None ->
  db w !! u = Some a ->
  exists (t' : table) (a' : Article),
    generate_and_store_embedding c id (text_request text) w
    = (Ok (StoreBody id (length e) (lit "success")
             (lit "Embedding generated and stored successfully"), 200),
       World t' t' (Encode [strip text] :: calls w))
    /\ t' !! u = Some a'
    /\ embedding a' = Some e
    /\ embedding_status a' = Some (lit "success")
    /\ other_columns a' = other_columns a
    /\ (forall v : uuid, v <> u -> t' !! v = db w !! v).
Proof.
  intros Hu Hb He Hq Hc Ha.
  exists (<[u := written c a e]> (db w)), (written c a e).
  split; [|split; [apply lookup_insert_eq|]].
  - rewrite (store_after_validation w id text u e rows Hu Hb He).
    unfold store_embedding, get_db_session, session_open, session_first,
      session_assign, session_commit, session_rollback, session_close.
    munfold. simpl. rewrite Hq. simpl. rewrite Ha. simpl. now rewrite Hc.
  - repeat split. intros v Hv. now apply lookup_insert_ne.
Qed.

(** X12. Validation comes first and has no effect: an id that is not a
    UUID is answered with 400 whatever the body is, and a blank text with
    400 as well; in both cases no model is called and nothing is read from
    or written to storage. *)
Theorem store_validation_has_no_effect (w : world) (id : str) :
  (UUID c id = None ->
   forall data,
     generate_and_store_embedding c id data w
     = (Ok (error "Invalid article ID format" 400), w)) /\
  (forall u text,
     UUID c id = Some u -> is_empty (strip text) = true ->
     generate_and_store_embedding c id (text_request text) w
     = (Ok (error "Empty text provided" 400), w)).
Proof.
  split.
  - intros Hu data.
    unfold generate_and_store_embedding, generate_and_store_embedding_body.
    rewrite Hu. munfold. now destruct w.
  - intros u text Hu Hb.
    unfold generate_and_store_embedding, generate_and_store_embedding_body,
      text_request.
    rewrite Hu. munfold. simpl.
    destruct (strip text); [|discriminate]. now destruct w.
Qed.

(** The table after the handler, for any request *)
Lemma store_effect (w : world) (id : str) (data : pyval) :
  exists r w',
    generate_and_store_embedding c id data w = (Ok r, w') /\
    (db w' = db w \/
     snd r = 200 /\
     exists u a e, db w !! u = Some a /\
                   db w' = <[u := written c a e]> (db w)).
Proof.
  unfold generate_and_store_embedding, generate_and_store_embedding_body.
  assert (E : forall x w0, db w0 = db w ->
                exists r w', on_error x w0 = (Ok r, w') /\ db w' = db w).
  { intros x w0 H. unfold on_error. destruct (exn_cls x); eauto. }
  destruct (UUID c id) as [u|]; munfold; [|eauto 6].
  destruct (missing_field data (lit "text")) as [[|]|x]; eauto 6.
  2: { destruct (E x w eq_refl) as (r & w' & -> & H). eauto 6. }
  destruct (py_get data (lit "text") (PStr [])) as [v|x].
  2: { destruct (E x w eq_refl) as (r & w' & -> & H). eauto 6. }
  destruct (py_strip v) as [text|x].
  2: { destruct (E x w eq_refl) as (r & w' & -> & H). eauto 6. }
  destruct (is_empty text); [eauto 6|].
  unfold model_encode. destruct (encode c [text]) as [rows|x]; simpl.
  2: { edestruct (E x) as (r & w' & -> & H); [|eauto 6]. reflexivity. }
  destruct (at_index rows 0) as [e|x]; simpl.
  2: { edestruct (E x) as (r & w' & -> & H); [|eauto 6]. reflexivity. }
  match goal with |- context [store_embedding c u e ?w0] =>
    destruct (store_embedding_effect u e w0) as [H|(a & Ha & -> & _)];
    [destruct (store_embedding c u e w0) as [[[r|]|x] w1]|]
  end; simpl in *.
  - eauto 6.
  - eauto 6.
  - destruct (E x w1 H) as (r & w' & -> & H'). eauto 6.
  - do 2 eexists. split; [reflexivity|]. right. split; [reflexivity|].
    exists u, a, e. auto.
Qed.

(** X13. For every request, an answer other than 200 leaves the table
    exactly as it was, storage errors included; and whatever the answer,
    the table keeps its rows, none added or removed, each with its columns
    other than [embedding], [embedding_status] and [updated_at]
    unchanged. *)
Theorem store_changes_only_on_200 (w : world) (id : str) (data : pyval) :
  exists r w',
    generate_and_store_embedding c id data w = (Ok r, w') /\
    (snd r <> 200 -> db w' = db w) /\
    rows_kept (db w) (db w').
Proof.
  destruct (store_effect w id data) as (r & w' & Hrun & [H|(H200 & u & a & e & Ha & H)]).
  - exists r, w'. rewrite H. auto using rows_kept_refl.
  - exists r, w'. rewrite H. split; [exact Hrun|]. split; [congruence|].
    now apply rows_kept_assign with a.
Qed.

(** X14. When the commit fails with a database error, a request that
    passed validation is answered with 500 "Database error" and nothing is
    written; this holds even when the article does not exist, as the
    session is committed on the way out of the not-found answer too. *)
Theorem store_commit_failure (w : world) (id text : str) (u : uuid)
    (e : list float) (rows : list (list float)) (x : exn) :
  UUID c id = Some u ->
  is_empty (strip text) = false ->
  encode c [strip text] = Ok (e :: rows) ->
  query_fault c u = None ->
  commit_fault c = Some x ->
  exn_cls x = SQLAlchemyError ->
  generate_and_store_embedding c id (text_request text) w
  = (Ok (error "Database error" 500),
     World (db w) (db w) (Encode [strip text] :: calls w)).
Proof.
  intros Hu Hb He Hq Hc Hx.
  rewrite (store_after_validation w id text u e rows Hu Hb He).
  unfold store_embedding, get_db_session, session_open, session_first,
    session_assign, session_commit, session_rollback, session_close.
  munfold. simpl. rewrite Hq. simpl.
  destruct (db w !! u); simpl; rewrite Hc; simpl;
    unfold on_error; now rewrite Hx.
Qed.

End StoreMore.

Lemma store_embedding_success_witness :
  exists (t' : table) (a' : Article),
    generate_and_store_embedding healthy id1 (text_request (lit "hello"))
      (start rows1)
    = (Ok (StoreBody id1 4 (lit "success")
             (lit "Embedding generated and stored successfully"), 200),
       World t' t' [Encode [lit "hello"]])
    /\ t' !! 24249434048109030647017182301789831168%N = Some a'
    /\ embedding a' = Some [f0_1; f0_2; f0_3; f0_5]
    /\ embedding_status a' = Some (lit "success")
    /\ other_columns a' = other_columns (row "https://example.org/a")
    /\ (forall v : uuid,
          v <> 24249434048109030647017182301789831168%N ->
          t' !! v = rows1 !! v).
Proof.
  apply (store_embedding_success healthy (start rows1) id1 (lit "hello")
           24249434048109030647017182301789831168%N
           (row "https://example.org/a") (vector_of (lit "hello")) []);
    reflexivity.
Defined.

Lemma store_validation_has_no_effect_witness :
  generate_and_store_embedding healthy (lit "not-a-uuid") PNone (start rows1)
  = (Ok (error "Invalid article ID format" 400), start rows1).
Proof.
  apply (proj1 (store_validation_has_no_effect healthy (start rows1)
                  (lit "not-a-uuid"))).
  reflexivity.
Defined.

Lemma store_commit_failure_witness :
  generate_and_store_embedding commit_down id2 (text_request (lit "hello"))
    (start rows1)
  = (Ok (error "Database error" 500),
     World rows1 rows1 [Encode [lit "hello"]]).
Proof.
  apply (store_commit_failure commit_down (start rows1) id2 (lit "hello")
           2%N (vector_of (lit "hello")) []
           (Exn SQLAlchemyError (lit "connection lost")));
    reflexivity.
Defined.

Lemma store_changes_only_on_200_witness :
  db (snd (generate_and_store_embedding commit_down id1
             (text_request (lit "hello")) (start rows1))) = rows1.
Proof.
  destruct (store_changes_only_on_200 commit_down (start rows1) id1
              (text_request (lit "hello"))) as (r & w' & Hrun & H & _).
  pose proof Hrun as E. vm_compute in E. injection E as Hr Hw.
  rewrite Hrun. simpl. apply H. rewrite <- Hr. discriminate.
Defined.

(** ** Storing a batch of embeddings *)

Section BatchMore.
Variable c : collab.

Lemma round_ok_refl w : round_ok w w.
Proof. split; [reflexivity|apply rows_kept_refl]. Qed.

Lemma round_ok_calls w cs : round_ok w (World (db w) (session w) cs).
Proof. split; [reflexivity|apply rows_kept_refl]. Qed.

Lemma round_ok_trans w1 w2 w3 : round_ok w1 w2 -> round_ok w2 w3 -> round_ok w1 w3.
Proof.
  intros [D1 R1] [D2 R2]. split; [congruence|].
  eapply rows_kept_trans; eassumption.
Qed.

Lemma process_article_effect (article_data article_id : pyval) (w : world) :
  exists r w',
    process_article c article_data article_id w = (r, w') /\
    round_ok w w' /\
    match r with
    | Ok (entry, updated) => updated = is_success entry
    | Raise _ => True
    end.
Proof.
  unfold process_article. munfold.
  destruct (py_get article_data (lit "text") (PStr [])) as [v|x];
    [|eauto using round_ok_refl].
  destruct (py_strip v) as [text|x]; [|eauto using round_ok_refl].
  destruct (negb (truthy article_id) || is_empty text);
    [eauto 6 using round_ok_refl|].
  destruct (uuid_of c article_id) as [[u|]|x];
    [|eauto 6 using round_ok_refl|eauto using round_ok_refl].
  unfold model_encode. destruct (encode c [text]) as [rows|x]; simpl;
    [|eauto using round_ok_calls].
  destruct (at_index rows 0) as [e|x]; simpl; [|eauto using round_ok_calls].
  unfold session_first. destruct (query_fault c u); simpl;
    [eauto using round_ok_calls|].
  destruct (session w !! u) as [a|] eqn:E; simpl;
    [|eauto 6 using round_ok_calls].
  do 2 eexists. split; [reflexivity|]. split; [|reflexivity].
  split; [reflexivity|]. simpl. now apply rows_kept_assign with a.
Qed.

(** The loop on any list of JSON values: it ends normally exactly when
    every item is an object, with one entry per item and a counter that
    went up once per success entry; an item that is not an object ends it
    with an exception that is not a database error. *)
Lemma process_articles_effect (l : list pyval) :
  forall bound acc n w,
  exists r w',
    process_articles c l bound acc n w = (r, w') /\
    round_ok w w' /\
    match r with
    | Ok (results, k) =>
        Forall (fun v => is_dict v = true) l /\
        length results = length acc + length l /\
        k + successes acc = n + successes results
    | Raise x =>
        Exists (fun v => is_dict v = false) l /\
        exn_cls x <> SQLAlchemyError
    end.
Proof.
  induction l as [|ad l IH]; intros bound acc n w.
  - exists (Ok (acc, n)), w. simpl. repeat split; auto using rows_kept_refl; lia.
  - cbn [process_articles].
    destruct ad as [| | | |d].
    1-4: destruct bound; do 2 eexists;
      (split; [reflexivity|]); (split; [apply round_ok_refl|]);
      (split; [now apply Exists_cons_hd|discriminate]).
    change (py_get (PDict d) (lit "id") PNone)
      with (Ok (match assoc (lit "id") d with Some x => x | None => PNone end)).
    cbv beta iota. set (id := match assoc (lit "id") d with
                                | Some x => x | None => PNone end).
    destruct (process_article_effect (PDict d) id w) as (r1 & w1 & H1 & O1 & U1).
    unfold mbind at 1, M_bind at 1. unfold try_except. rewrite H1.
    set (entry := match r1 with
                  | Ok eu => eu
                  | Raise x =>
                      (ItemError (match assoc (lit "id") d with
                                  | Some y => y
                                  | None => PStr (lit "unknown")
                                  end) (exn_msg x), false)
                  end).
    assert (Hround : match r1 with
                     | Ok a => (Ok a, w1)
                     | Raise e =>
                         (shown ← lift (py_get (PDict d) (lit "id")
                                          (PStr (lit "unknown")));
                          mret (ItemError shown (exn_msg e), false)) w1
                     end = (Ok entry, w1)).
    { unfold entry. destruct r1; reflexivity. }
    rewrite Hround.
    assert (Hup : snd entry = is_success (fst entry)).
    { unfold entry. destruct r1 as [[e0 u0]|x]; [exact U1|reflexivity]. }
    destruct entry as [e0 u0]. simpl in Hup. subst u0.
    destruct (IH (Some id) (acc ++ [e0])
                (if is_success e0 then S n else n) w1)
      as (r & w' & Hrun & O & Hr).
    exists r, w'. split; [exact Hrun|]. split; [now apply round_ok_trans with w1|].
    destruct r as [[results k]|x].
    + destruct Hr as (Hd & Hlen & Hk). split; [now constructor|].
      rewrite length_app in Hlen. simpl in *. split; [lia|].
      unfold successes in *. rewrite List.filter_app, length_app in Hk.
      simpl in Hk. destruct (is_success e0); simpl in Hk; lia.
    + destruct Hr as [Hd Hx]. split; [now apply Exists_cons_tl|exact Hx].
Qed.

(** The whole handler on a request whose [articles] is a non-empty list *)
Lemma batch_store_steps (l : list pyval) (w : world) :
  l <> [] ->
  exists r w1,
    process_articles c l None [] 0 (World (db w) (db w) (calls w)) = (r, w1)
    /\ generate_batch_embeddings_and_store c
         (PDict [(lit "articles", PList l)]) w
       = match r, commit_fault c with
         | Ok (results, k), None =>
             (Ok (BatchStoreBody (length l) k results, 200),
              World (session w1) (session w1) (calls w1))
         | Ok _, Some x => on_error x (World (db w1) (db w1) (calls w1))
         | Raise x, _ => on_error x (World (db w1) (db w1) (calls w1))
         end.
Proof.
  intros Hl.
  destruct (process_articles c l None [] 0 (World (db w) (db w) (calls w)))
    as [r w1] eqn:Hrun.
  exists r, w1. split; [reflexivity|].
  unfold generate_batch_embeddings_and_store,
    generate_batch_embeddings_and_store_body.
  assert (Ht : truthy (PList l) = true) by (destruct l; [now destruct Hl|reflexivity]).
  munfold. simpl. simpl in Ht. rewrite Ht. cbv beta iota.
  unfold get_db_session, session_open, session_commit, session_rollback,
    session_close.
  munfold. change (negb true) with false. cbv beta iota.
  cbn [db session calls]. rewrite Hrun.
  destruct r as [[results k]|x]; cbn [db session calls].
  - destruct (commit_fault c); reflexivity.
  - reflexivity.
Qed.

Lemma batch_store_effect (data : pyval) (w : world) :
  exists r w',
    generate_batch_embeddings_and_store c data w = (Ok r, w') /\
    (snd r <> 200 -> db w' = db w) /\
    rows_kept (db w) (db w') /\
    (forall total k results,
       r = (BatchStoreBody total k results, 200) ->
       total = length results /\ k = successes results).
Proof.
  assert (E : forall x w0, db w0 = db w ->
                exists r w', on_error x w0 = (Ok r, w') /\
                  (snd r <> 200 -> db w' = db w) /\
                  rows_kept (db w) (db w') /\
                  (forall total k results,
                     r = (BatchStoreBody total k results, 200) ->
                     total = length results /\ k = successes results)).
  { intros x w0 H. unfold on_error.
    destruct (exn_cls x); do 2 eexists; (split; [reflexivity|]);
      rewrite H; repeat split; auto using rows_kept_refl; discriminate. }
  assert (V : forall msg w0, db w0 = db w ->
                exists r w',
                  (Ok (error msg 400), w0) = (Ok r, w') /\
                  (snd r <> 200 -> db w' = db w) /\
                  rows_kept (db w) (db w') /\
                  (forall total k results,
                     r = (BatchStoreBody total k results, 200) ->
                     total = length results /\ k = successes results)).
  { intros msg w0 H. do 2 eexists. split; [reflexivity|].
    rewrite H. repeat split; auto using rows_kept_refl; discriminate. }
  destruct (missing_field data (lit "articles")) as [[|]|x] eqn:Hm.
  { unfold generate_batch_embeddings_and_store,
      generate_batch_embeddings_and_store_body; munfold; rewrite Hm.
    now apply V. }
  2: { unfold generate_batch_embeddings_and_store,
         generate_batch_embeddings_and_store_body; munfold; rewrite Hm.
       now apply E. }
  destruct (getitem data (lit "articles")) as [v|x] eqn:Hg.
  2: { unfold generate_batch_embeddings_and_store,
         generate_batch_embeddings_and_store_body; munfold.
       rewrite Hm, Hg. now apply E. }
  destruct data as [| | | |d]; try discriminate.
  destruct v as [| | |l|].
  1-3,5: unfold generate_batch_embeddings_and_store,
           generate_batch_embeddings_and_store_body; munfold;
         rewrite Hm, Hg; now apply V.
  destruct l as [|v0 l0].
  { unfold generate_batch_embeddings_and_store,
      generate_batch_embeddings_and_store_body; munfold.
    rewrite Hm, Hg. now apply V. }
  assert (Hd : generate_batch_embeddings_and_store c (PDict d) w
               = generate_batch_embeddings_and_store c
                   (PDict [(lit "articles", PList (v0 :: l0))]) w).
  { unfold generate_batch_embeddings_and_store,
      generate_batch_embeddings_and_store_body. munfold.
    rewrite Hm, Hg. reflexivity. }
  rewrite Hd.
  destruct (batch_store_steps (v0 :: l0) w) as (r & w1 & Hrun & ->);
    [discriminate|].
  destruct (process_articles_effect (v0 :: l0) None [] 0
              (World (db w) (db w) (calls w)))
    as (r' & w1' & Hrun' & [D R] & Hr).
  rewrite Hrun in Hrun'. injection Hrun' as <- <-. simpl in D, R.
  destruct r as [[results k]|x].
  - destruct (commit_fault c) as [x|]; [now apply E|].
    do 2 eexists. split; [reflexivity|]. simpl.
    split; [congruence|]. split; [exact R|].
    intros total k' results' [= <- <- <-].
    destruct Hr as (_ & Hlen & Hk). unfold successes in Hk. simpl in *.
    split; [lia|unfold successes; lia].
  - now apply E.
Qed.

(** X15. For every request to the batch store, an answer other than 200
    leaves the table exactly as it was: the batch is written as a whole or
    not at all. Whatever the answer, the table keeps its rows, none added
    or removed, each with its columns other than [embedding],
    [embedding_status] and [updated_at] unchanged. *)
Theorem batch_store_changes_only_on_200 (data : pyval) (w : world) :
  exists r w',
    generate_batch_embeddings_and_store c data w = (Ok r, w') /\
    (snd r <> 200 -> db w' = db w) /\
    rows_kept (db w) (db w').
Proof.
  destruct (batch_store_effect data w) as (r & w' & H1 & H2 & H3 & _).
  eauto.
Qed.

(** X16. The counts of a batch answer agree with its entries, for every
    request: the total is the number of entries and the number of
    successful updates is the number of success entries, so it never
    exceeds the total. *)
Theorem batch_store_counts_consistent (data : pyval) (w : world)
    (total k : nat) (results : list item_result) :
  fst (generate_batch_embeddings_and_store c data w)
  = Ok (BatchStoreBody total k results, 200) ->
  total = length results /\ k = successes results /\ k <= total.
Proof.
  intros H. destruct (batch_store_effect data w) as (r & w' & Hrun & _ & _ & Hc).
  rewrite Hrun in H. simpl in H. injection H as ->.
  destruct (Hc total k results eq_refl) as [-> ->].
  repeat split. unfold successes. apply List.filter_length_le.
Qed.

(** X17. An item that is not a JSON object fails the whole batch: the
    answer is 500 "Internal server error" and nothing is written, not
    even the updates of valid items that came before it. *)
Theorem batch_store_non_object_item_aborts (l : list pyval) (w : world) :
  Exists (fun v => is_dict v = false) l ->
  exists w',
    generate_batch_embeddings_and_store c (PDict [(lit "articles", PList l)]) w
    = (Ok (error "Internal server error" 500), w')
    /\ db w' = db w.
Proof.
  intros H.
  destruct (batch_store_steps l w) as (r & w1 & Hrun & ->).
  { intros ->. now apply Exists_nil in H. }
  destruct (process_articles_effect l None [] 0
              (World (db w) (db w) (calls w)))
    as (r' & w1' & Hrun' & [D R] & Hr).
  rewrite Hrun in Hrun'. injection Hrun' as <- <-. simpl in D.
  destruct r as [[results k]|x].
  - destruct Hr as (Hd & _). exfalso.
    apply Exists_exists in H as (v & Hv & Hnd).
    rewrite Forall_forall in Hd. specialize (Hd v Hv). congruence.
  - destruct Hr as [_ Hx]. unfold on_error.
    exists (World (db w1) (db w1) (calls w1)). split; [|exact D].
    destruct (exn_cls x) eqn:E; try reflexivity. congruence.
Qed.

(** X18. When the commit fails with a database error, a batch of objects
    is answered with 500 "Database error" and nothing is written, however
    many of its items had succeeded. *)
Theorem batch_store_commit_failure (l : list pyval) (w : world) (x : exn) :
  l <> [] ->
  Forall (fun v => is_dict v = true) l ->
  commit_fault c = Some x ->
  exn_cls x = SQLAlchemyError ->
  exists w',
    generate_batch_embeddings_and_store c (PDict [(lit "articles", PList l)]) w
    = (Ok (error "Database error" 500), w')
    /\ db w' = db w.
Proof.
  intros Hl Hd Hc Hx.
  destruct (batch_store_steps l w Hl) as (r & w1 & Hrun & ->).
  destruct (process_articles_effect l None [] 0
              (World (db w) (db w) (calls w)))
    as (r' & w1' & Hrun' & [D R] & Hr).
  rewrite Hrun in Hrun'. injection Hrun' as <- <-. simpl in D.
  destruct r as [[results k]|y].
  - rewrite Hc. unfold on_error. rewrite Hx.
    exists (World (db w1) (db w1) (calls w1)). split; [reflexivity|exact D].
  - destruct Hr as [He _]. exfalso.
    apply Exists_exists in He as (v & Hv & Hnd).
    rewrite Forall_forall in Hd. specialize (Hd v Hv). congruence.
Qed.

End BatchMore.

Section BatchCalls.
Variable c : collab.

(** One round on an {id, text} item, handler included, always appends an
    entry, and calls the model exactly when the item passes validation. *)
Lemma round_calls (it : str * str) (w : world) :
  exists entry w',
    try_except (process_article c (item it) (PStr (fst it)))
      (fun e =>
         shown ← lift (py_get (item it) (lit "id") (PStr (lit "unknown")));
         mret (ItemError shown (exn_msg e), false)) w
    = (Ok entry, w')
    /\ calls w' = item_calls c it ++ calls w.
Proof.
  unfold process_article, item_calls, valid_item.
  rewrite !item_id, !item_text. munfold. simpl py_strip. cbv beta iota.
  replace (negb (truthy (PStr it.1))) with (is_empty it.1)
    by now destruct (fst it).
  destruct (is_empty it.1 || is_empty (strip it.2)); [eauto|].
  unfold uuid_of. cbv beta iota.
  destruct (UUID c it.1) as [u|]; simpl; [|eauto].
  unfold model_encode, session_first, session_assign.
  destruct (encode c [strip it.2]) as [[|e rows]|x]; simpl; eauto.
  destruct (query_fault c u); simpl; eauto.
  destruct (session w !! u); simpl; eauto.
Qed.

Lemma process_articles_calls (l : list (str * str)) : forall bound acc n w,
  exists res w',
    process_articles c (List.map item l) bound acc n w = (Ok res, w')
    /\ calls w' = rev (encode_calls c l) ++ calls w.
Proof.
  induction l as [|it l IH]; intros bound acc n w.
  - exists (acc, n), w. split; reflexivity.
  - destruct (round_calls it w) as ([entry updated] & w1 & Hround & Hc1).
    destruct (IH (Some (PStr (fst it))) (acc ++ [entry])
                (if updated then S n else n) w1) as (res & w' & Hrest & Hc).
    exists res, w'. cbn [List.map process_articles]. rewrite item_id.
    unfold mbind at 1, M_bind at 1. rewrite Hround. split; [exact Hrest|].
    rewrite Hc, Hc1. unfold encode_calls. simpl.
    rewrite rev_app_distr, <- app_assoc.
    f_equal. unfold item_calls. now destruct (valid_item c it) as [[u t]|].
Qed.

(** X19. The batch store calls the model once for each item that passes
    validation, in the order of the items and on that item's stripped text
    alone (never on several texts at once); items that fail validation
    cost no call. This holds whether or not storage works. *)
Theorem batch_store_model_calls (l : list (str * str)) (w : world) :
  l <> [] ->
  calls (snd (generate_batch_embeddings_and_store c (articles l) w))
  = rev (encode_calls c l) ++ calls w.
Proof.
  intros Hl. unfold articles.
  destruct (batch_store_steps c (List.map item l) w) as (r & w1 & Hrun & ->).
  { destruct l; [now destruct Hl|discriminate]. }
  destruct (process_articles_calls l None [] 0
              (World (db w) (db w) (calls w))) as (res & w' & Hrun' & Hc).
  rewrite Hrun' in Hrun. injection Hrun as <- <-.
  destruct res as [results k]. simpl in Hc.
  destruct (commit_fault c) as [x|]; [|exact Hc].
  unfold on_error. now destruct (exn_cls x).
Qed.

End BatchCalls.

Lemma batch_store_model_calls_witness :
  calls (snd (generate_batch_embeddings_and_store healthy
                (articles [(id1, lit " one "); (lit "nope", lit "x");
                           ([], lit "y"); (id2, lit "two")])
                (start rows1)))
  = [Encode [lit "two"]; Encode [lit "one"]].
Proof.
  apply (batch_store_model_calls healthy
           [(id1, lit " one "); (lit "nope", lit "x");
            ([], lit "y"); (id2, lit "two")] (start rows1)).
  discriminate.
Defined.

Lemma batch_store_changes_only_on_200_witness :
  db (snd (generate_batch_embeddings_and_store healthy
             (PDict [(lit "articles",
                      PList [item (id1, lit "hello"); PStr (lit "oops")])])
             (start rows1)))
  = rows1.
Proof.
  destruct (batch_store_changes_only_on_200 healthy
              (PDict [(lit "articles",
                       PList [item (id1, lit "hello"); PStr (lit "oops")])])
              (start rows1)) as (r & w' & Hrun & H & _).
  pose proof Hrun as E. vm_compute in E. injection E as Hr Hw.
  rewrite Hrun. simpl. apply H. rewrite <- Hr. discriminate.
Defined.

Lemma batch_store_counts_consistent_witness :
  2 = length [ItemSuccess (PStr id1) 4;
              ItemError (PStr (lit "nope")) (lit "Invalid article ID format")]
  /\ 1 = successes
           [ItemSuccess (PStr id1) 4;
            ItemError (PStr (lit "nope")) (lit "Invalid article ID format")]
  /\ 1 <= 2.
Proof.
  apply (batch_store_counts_consistent healthy
           (articles [(id1, lit "hello"); (lit "nope", lit "x")])
           (start rows1)).
  vm_compute. reflexivity.
Defined.

Lemma batch_store_non_object_item_aborts_witness :
  exists w',
    generate_batch_embeddings_and_store healthy
      (PDict [(lit "articles",
               PList [item (id1, lit "hello"); PStr (lit "oops")])])
      (start rows1)
    = (Ok (error "Internal server error" 500), w')
    /\ db w' = rows1.
Proof.
  apply (batch_store_non_object_item_aborts healthy
           [item (id1, lit "hello"); PStr (lit "oops")] (start rows1)).
  apply Exists_cons_tl, Exists_cons_hd. reflexivity.
Defined.

Lemma batch_store_commit_failure_witness :
  exists w',
    generate_batch_embeddings_and_store commit_down
      (PDict [(lit "articles", PList [item (id1, lit "hello")])])
      (start rows1)
    = (Ok (error "Database error" 500), w')
    /\ db w' = rows1.
Proof.
  apply (batch_store_commit_failure commit_down [item (id1, lit "hello")]
           (start rows1) (Exn SQLAlchemyError (lit "connection lost"))).
  - discriminate.
  - repeat constructor.
  - reflexivity.
  - reflexivity.
Defined.

Section BatchRetry.
Variable c : collab.
Hypothesis storage_answers : forall u, query_fault c u = None.
Hypothesis commit_works : commit_fault c = None.

Lemma foldl_rows l (t : table) u :
  is_Some (foldl (apply_item c) t l !! u) <-> is_Some (t !! u).
Proof.
  rewrite foldl_apply_item.
  destruct (t !! u), (last_embedding c u l); split; eauto.
Qed.

Lemma report_rows (t t' : table) it :
  (forall u, is_Some (t !! u) <-> is_Some (t' !! u)) ->
  report c t it = report c t' it.
Proof.
  intros H. unfold report.
  destruct (is_empty it.1 || is_empty (strip it.2)); [reflexivity|].
  destruct (UUID c it.1) as [u|]; [|reflexivity].
  destruct (encode c [strip it.2]) as [[|e rows]|x]; try reflexivity.
  specialize (H u). destruct (t !! u), (t' !! u); try reflexivity.
  - destruct (proj1 H) as [? [=]]. eauto.
  - destruct (proj2 H) as [? [=]]. eauto.
Qed.

Lemma succeeded_rows (t t' : table) it :
  (forall u, is_Some (t !! u) <-> is_Some (t' !! u)) ->
  succeeded c t it = succeeded c t' it.
Proof.
  intros H. unfold succeeded.
  destruct (computed c it) as [[u e]|]; [|reflexivity].
  apply bool_decide_ext, H.
Qed.

(** Which embedding the items give a row does not depend on the clock. *)
Lemma last_embedding_at_time (t : Z) (l : list (str * str)) (u : uuid) :
  last_embedding (at_time t c) u l = last_embedding c u l.
Proof.
  induction l as [|it l IH]; [reflexivity|].
  simpl. now rewrite IH.
Qed.

(** X20. Sending the same batch again, at whatever later time, is
    harmless: with storage working, the second run gives the same answer
    as the first and leaves every row as the first run left it in all
    columns other than [updated_at], which the UPDATEs of the second run
    set anew. *)
Theorem batch_store_idempotent (w : world) (l : list (str * str)) (later : Z) :
  l <> [] ->
  exists answer w1 w2,
    generate_batch_embeddings_and_store c (articles l) w = (Ok answer, w1) /\
    generate_batch_embeddings_and_store (at_time later c) (articles l) w1
    = (Ok answer, w2) /\
    (forall u : uuid,
       columns_but_updated_at <$> (db w2 !! u)
       = columns_but_updated_at <$> (db w1 !! u)).
Proof.
  intros Hl.
  destruct (batch_store_run c storage_answers commit_works w l Hl) as [cs H1].
  set (t1 := foldl (apply_item c) (db w) l) in *.
  destruct (batch_store_run (at_time later c) storage_answers commit_works
              (World t1 t1 cs) l Hl) as [cs2 H2].
  cbn [db] in H2.
  assert (R : forall u, is_Some (t1 !! u) <-> is_Some (db w !! u))
    by (intros u; apply foldl_rows).
  pose proof (last_embedding_at_time later l) as L.
  assert (F : List.filter (succeeded (at_time later c) t1) l
              = List.filter (succeeded c (db w)) l).
  { apply List.filter_ext. intros it.
    change (succeeded (at_time later c) t1 it) with (succeeded c t1 it).
    now apply succeeded_rows. }
  assert (M : List.map (report (at_time later c) t1) l
              = List.map (report c (db w)) l).
  { apply List.map_ext. intros it.
    change (report (at_time later c) t1 it) with (report c t1 it).
    now apply report_rows. }
  eexists _, _, _. split; [exact H1|].
  rewrite H2, F, M. split; [reflexivity|].
  intros u. cbn [db]. rewrite foldl_apply_item, L. unfold t1.
  rewrite foldl_apply_item.
  destruct (db w !! u) as [a|], (last_embedding c u l); reflexivity.
Qed.

End BatchRetry.

Lemma batch_store_idempotent_witness :
  exists answer w1 w2,
    generate_batch_embeddings_and_store healthy
      (articles [(id1, lit "hello"); (lit "nope", lit "x")]) (start rows1)
    = (Ok answer, w1) /\
    generate_batch_embeddings_and_store (at_time 1700003600 healthy)
      (articles [(id1, lit "hello"); (lit "nope", lit "x")]) w1
    = (Ok answer, w2) /\
    (forall u : uuid,
       columns_but_updated_at <$> (db w2 !! u)
       = columns_but_updated_at <$> (db w1 !! u)).
Proof.
  apply (batch_store_idempotent healthy (fun _ => eq_refl) eq_refl
           (start rows1) [(id1, lit "hello"); (lit "nope", lit "x")]
           1700003600%Z).
  discriminate.
Defined.

Section ClassifyCounts.
Variable c : collab.

Lemma classify_all_length (all : list pyval) (indices : list nat)
    (cleaned : list str) : forall i w results w',
  classify_all c all indices i cleaned w = (Ok results, w') ->
  length results = length cleaned.
Proof.
  induction cleaned as [|t cleaned IH]; intros i w results w'.
  - intros [= <- _]. reflexivity.
  - cbn [classify_all]. munfold.
    destruct (at_index indices i) as [index|]; [|discriminate].
    destruct (at_index all index) as [original|]; [|discriminate].
    unfold run_classifier. destruct (classifier c t) as [cr|]; [|discriminate].
    simpl. destruct (as_str original) as [text|]; [|discriminate].
    destruct (calculate_article_score text cr) as [score|]; [|discriminate].
    destruct (classify_all c all indices (S i) cleaned _) as [[rs|] w1] eqn:E;
      [|discriminate].
    intros [= <- _]. simpl. f_equal. exact (IH _ _ _ _ E).
Qed.

(** X21. In every 200 answer of the batch classifier, [count] and
    [processed] are both the number of results: every text that passed the
    blank filter has a result, or the whole request failed. *)
Theorem classify_batch_counts (data : pyval) (w : world)
    (results : list classify_result) (count processed : nat) :
  fst (classify_batch_content c data w)
  = Ok (ClassifyBatchBody results count processed, 200) ->
  count = length results /\ processed = length results.
Proof.
  unfold classify_batch_content, classify_batch_content_body. munfold.
  destruct (missing_field data (lit "texts")) as [[|]|]; try discriminate.
  destruct (getitem data (lit "texts")) as [v|]; [|discriminate].
  destruct (negb (is_list v) || negb (truthy v)); [discriminate|].
  destruct (filter_and_clean 0 (items v)) as [[cleaned indices]|];
    [|discriminate].
  destruct cleaned as [|t cleaned]; [discriminate|].
  destruct (classify_all c (items v) indices 0 (t :: cleaned) w)
    as [[rs|] w1] eqn:E; [|discriminate].
  simpl. intros [= <- <- <-].
  now rewrite (classify_all_length _ _ _ _ _ _ _ E).
Qed.

End ClassifyCounts.

Lemma classify_batch_counts_witness :
  2 = length (A := classify_result)
        [{| cr_text := lit "valid one"; cr_is_article := false;
            cr_confidence := S754_finite false 5224175567749775 (-54);
            cr_index := 1 |};
         {| cr_text := lit "valid two"; cr_is_article := false;
            cr_confidence := S754_finite false 5224175567749775 (-54);
            cr_index := 2 |}]
  /\ 2 = length (A := classify_result)
        [{| cr_text := lit "valid one"; cr_is_article := false;
            cr_confidence := S754_finite false 5224175567749775 (-54);
            cr_index := 1 |};
         {| cr_text := lit "valid two"; cr_is_article := false;
            cr_confidence := S754_finite false 5224175567749775 (-54);
            cr_index := 2 |}].
Proof.
  apply (classify_batch_counts healthy
           (texts [[]; lit "valid one"; lit "valid two"]) (start ∅)).
  vm_compute. reflexivity.
Defined.
